(** * Character / item / combat model of [dataclasses_vs_classic_classes/026.py]

    A shallow embedding of the Python module: the item dataclasses, the
    [CharacterClass] enumeration, the [Character] dataclass with its
    methods, and a small world of characters on which sequences of method
    calls are run.

    Conventions.
    - Python [int] is [Z] (unbounded), [str] is [string].
    - [print] is modelled by the list of [Report] events a method emits; an
      event carries the values the f-string interpolates.
    - Items are never mutated by the module, so a reference to an item
      object is its identity ([addr]) paired with the object's fields.
    - A [Character] owns its inventory list: the constructor's default
      gives every character a fresh list, and no list object is handed to
      two constructors here.  Characters themselves live in a store
      ([World]) and are named by their index, so that [attack_enemy] may
      alias attacker and target. *)

From Stdlib Require Import ZArith Lia String List Bool.
From stdpp Require Import base list.
Import ListNotations.

Open Scope string_scope.
Open Scope list_scope.
Open Scope Z_scope.

(** ** Items *)

Inductive PotionType : Type :=
  | HEALTH | MANA | STRENGTH | PERCEPTION
  | DEXTERITY | INTELLIGENCE | CHARISMA | LUCK.

Definition PotionType_eq (a b : PotionType) : bool :=
  match a, b with
  | HEALTH, HEALTH | MANA, MANA | STRENGTH, STRENGTH
  | PERCEPTION, PERCEPTION | DEXTERITY, DEXTERITY
  | INTELLIGENCE, INTELLIGENCE | CHARISMA, CHARISMA | LUCK, LUCK => true
  | _, _ => false
  end.

(** The class of an item object together with its fields.  [Item] and
    [Consumable] can be instantiated as they stand; [Weapon], [Armor] and
    [Potion] add their own fields ([durability] is the supplied value or
    the one drawn by the default factory). *)
Inductive Item : Type :=
  | BaseItem (name description : string)
  | Consumable (name description : string)
  | Weapon (name description : string) (damage durability : Z)
  | Armor (name description : string) (defense durability : Z)
  | Potion (name description : string) (potion_type : PotionType) (amount : Z).

Definition item_name (i : Item) : string :=
  match i with
  | BaseItem n _ | Consumable n _ | Weapon n _ _ _
  | Armor n _ _ _ | Potion n _ _ _ => n
  end.

(** [isinstance(x, Potion)] *)
Definition isinstance_Potion (i : Item) : bool :=
  match i with Potion _ _ _ _ => true | _ => false end.

(** The [__eq__] that [@dataclass] generates: objects of the same class
    are compared field by field; for different classes both sides answer
    [NotImplemented] and the comparison falls back to identity. *)
Definition Item_eq (a b : Item) : bool :=
  match a, b with
  | BaseItem n d, BaseItem n' d' => String.eqb n n' && String.eqb d d'
  | Consumable n d, Consumable n' d' => String.eqb n n' && String.eqb d d'
  | Weapon n d g u, Weapon n' d' g' u' =>
      String.eqb n n' && String.eqb d d' && (g =? g') && (u =? u')
  | Armor n d g u, Armor n' d' g' u' =>
      String.eqb n n' && String.eqb d d' && (g =? g') && (u =? u')
  | Potion n d t a, Potion n' d' t' a' =>
      String.eqb n n' && String.eqb d d' && PotionType_eq t t' && (a =? a')
  | _, _ => false
  end.

(** A reference to an item object. *)
Record ItemRef : Type := mkRef { addr : nat; obj : Item }.

(** [x == y] as the list operations evaluate it: identical objects are
    equal, otherwise [__eq__] decides. *)
Definition py_eq (x y : ItemRef) : bool :=
  (addr x =? addr y)%nat || Item_eq (obj x) (obj y).

(** [x in l] *)
Definition py_in (x : ItemRef) (l : list ItemRef) : bool :=
  existsb (fun y => py_eq y x) l.

Inductive Exception : Type := ValueError.

Inductive Result (A : Type) : Type :=
  | Returns (a : A)
  | Raises (e : Exception).
Arguments Returns {A} a.
Arguments Raises {A} e.

(** [l.remove(x)]: drops the first element equal to [x]; raises
    [ValueError] when there is none. *)
Fixpoint list_remove (x : ItemRef) (l : list ItemRef) : Result (list ItemRef) :=
  match l with
  | [] => Raises ValueError
  | y :: l' =>
      if py_eq y x then Returns l'
      else match list_remove x l' with
           | Returns r => Returns (y :: r)
           | Raises e => Raises e
           end
  end.

(** ** The display sink *)

Inductive Report : Type :=
  | Drinking (pt : PotionType) (amount : Z)
  | Healed (who : string) (healed_amount health : Z)
  | NotConsumable (item : string)
  | DoesNotHave (who item : string)
  | Defeated (who : string)
  | TookDamage (who : string) (amount health : Z)
  | Attacks (who enemy : string) (attack : Z)
  | PickedUp (who : string) (item : Item).

(** ** Character classes *)

Inductive CharacterClass : Type :=
  | KNIGHT | MAGE | ROGUE | ARCHER | CLERIC | WARRIOR | ASSASSIN
  | BERSERKER | PALADIN | NECROMANCER | DRUID | BARD | MONK | RANGER
  | SORCERER | WARLOCK | WIZARD | BARBARIAN | ARTIFICER | BLOODHUNTER
  | GRUNT.

(** [c.value] *)
Definition value (c : CharacterClass) : string :=
  match c with
  | KNIGHT => "Knight" | MAGE => "Mage" | ROGUE => "Rogue"
  | ARCHER => "Archer" | CLERIC => "Cleric" | WARRIOR => "Warrior"
  | ASSASSIN => "Assassin" | BERSERKER => "Berserker"
  | PALADIN => "Paladin" | NECROMANCER => "Necromancer"
  | DRUID => "Druid" | BARD => "Bard" | MONK => "Monk"
  | RANGER => "Ranger" | SORCERER => "Sorcerer" | WARLOCK => "Warlock"
  | WIZARD => "Wizard" | BARBARIAN => "Barbarian"
  | ARTIFICER => "Artificer" | BLOODHUNTER => "Blood Hunter"
  | GRUNT => "Grunt"
  end.

Definition all_classes : list CharacterClass :=
  [KNIGHT; MAGE; ROGUE; ARCHER; CLERIC; WARRIOR; ASSASSIN; BERSERKER;
   PALADIN; NECROMANCER; DRUID; BARD; MONK; RANGER; SORCERER; WARLOCK;
   WIZARD; BARBARIAN; ARTIFICER; BLOODHUNTER; GRUNT].

(** The 21 class labels. *)
Definition class_labels : list string := map value all_classes.

(** What the [character_class] attribute may hold: the annotation says
    [str], the constructor also takes a member of the enumeration. *)
Inductive ClassField : Type :=
  | EnumMember (c : CharacterClass)
  | Str (s : string).

(** [f == label] for a string [label]: an enumeration member is equal to
    no string. *)
Definition class_eq (f : ClassField) (label : string) : bool :=
  match f with
  | EnumMember _ => false
  | Str s => String.eqb s label
  end.

(** ** Characters *)

Record Character : Type := mkCharacter {
  name : string;
  character_class : ClassField;
  strength : Z;
  perception : Z;
  dexterity : Z;
  intelligence : Z;
  charisma : Z;
  luck : Z;
  level : Z;
  health : Z;
  attack : Z;
  defense : Z;
  inventory : list ItemRef
}.

(** Attribute assignments [self.f = v]. *)
Definition set_character_class (v : ClassField) (c : Character) : Character :=
  mkCharacter (name c) v (strength c) (perception c) (dexterity c)
    (intelligence c) (charisma c) (luck c) (level c) (health c) (attack c)
    (defense c) (inventory c).
Definition set_strength (v : Z) (c : Character) : Character :=
  mkCharacter (name c) (character_class c) v (perception c) (dexterity c)
    (intelligence c) (charisma c) (luck c) (level c) (health c) (attack c)
    (defense c) (inventory c).
Definition set_perception (v : Z) (c : Character) : Character :=
  mkCharacter (name c) (character_class c) (strength c) v (dexterity c)
    (intelligence c) (charisma c) (luck c) (level c) (health c) (attack c)
    (defense c) (inventory c).
Definition set_dexterity (v : Z) (c : Character) : Character :=
  mkCharacter (name c) (character_class c) (strength c) (perception c) v
    (intelligence c) (charisma c) (luck c) (level c) (health c) (attack c)
    (defense c) (inventory c).
Definition set_intelligence (v : Z) (c : Character) : Character :=
  mkCharacter (name c) (character_class c) (strength c) (perception c)
    (dexterity c) v (charisma c) (luck c) (level c) (health c) (attack c)
    (defense c) (inventory c).
Definition set_charisma (v : Z) (c : Character) : Character :=
  mkCharacter (name c) (character_class c) (strength c) (perception c)
    (dexterity c) (intelligence c) v (luck c) (level c) (health c) (attack c)
    (defense c) (inventory c).
Definition set_luck (v : Z) (c : Character) : Character :=
  mkCharacter (name c) (character_class c) (strength c) (perception c)
    (dexterity c) (intelligence c) (charisma c) v (level c) (health c)
    (attack c) (defense c) (inventory c).
Definition set_health (v : Z) (c : Character) : Character :=
  mkCharacter (name c) (character_class c) (strength c) (perception c)
    (dexterity c) (intelligence c) (charisma c) (luck c) (level c) v
    (attack c) (defense c) (inventory c).
Definition set_attack (v : Z) (c : Character) : Character :=
  mkCharacter (name c) (character_class c) (strength c) (perception c)
    (dexterity c) (intelligence c) (charisma c) (luck c) (level c)
    (health c) v (defense c) (inventory c).
Definition set_defense (v : Z) (c : Character) : Character :=
  mkCharacter (name c) (character_class c) (strength c) (perception c)
    (dexterity c) (intelligence c) (charisma c) (luck c) (level c)
    (health c) (attack c) v (inventory c).
Definition set_inventory (v : list ItemRef) (c : Character) : Character :=
  mkCharacter (name c) (character_class c) (strength c) (perception c)
    (dexterity c) (intelligence c) (charisma c) (luck c) (level c)
    (health c) (attack c) (defense c) v.

(** Augmented assignments [self.f += d] ([self.f -= d] is [+= -d]). *)
Definition add_strength (d : Z) (c : Character) := set_strength (strength c + d) c.
Definition add_perception (d : Z) (c : Character) := set_perception (perception c + d) c.
Definition add_dexterity (d : Z) (c : Character) := set_dexterity (dexterity c + d) c.
Definition add_intelligence (d : Z) (c : Character) := set_intelligence (intelligence c + d) c.
Definition add_charisma (d : Z) (c : Character) := set_charisma (charisma c + d) c.
Definition add_luck (d : Z) (c : Character) := set_luck (luck c + d) c.
Definition add_health (d : Z) (c : Character) := set_health (health c + d) c.
Definition add_attack (d : Z) (c : Character) := set_attack (attack c + d) c.
Definition add_defense (d : Z) (c : Character) := set_defense (defense c + d) c.

(** Statement sequencing for the branches below: [c |> f |> g] runs [f]
    and then [g] on the object. *)
Notation "c |> f" := (f c) (at level 45, left associativity, only parsing).

(** [Character._apply_class_bonuses]: the [if]/[elif] chain, in source
    order; there is no [else]. *)
Definition _apply_class_bonuses (self : Character) : Character :=
  let cls := character_class self in
  if class_eq cls (value KNIGHT) then
    self |> add_strength 2 |> add_defense 1 |> add_health 10
  else if class_eq cls (value MAGE) then
    self |> add_intelligence 3 |> add_attack 2 |> add_health (-5)
  else if class_eq cls (value ROGUE) then
    self |> add_dexterity 3 |> add_perception 1 |> add_attack 1
  else if class_eq cls (value ARCHER) then
    self |> add_dexterity 2 |> add_perception 2 |> add_attack 1
  else if class_eq cls (value CLERIC) then
    self |> add_charisma 2 |> add_intelligence 1 |> add_health 5
  else if class_eq cls (value WARRIOR) then
    self |> add_strength 3 |> add_defense 2 |> add_health 15
  else if class_eq cls (value ASSASSIN) then
    self |> add_dexterity 4 |> add_luck 1 |> add_attack 2 |> add_health (-10)
  else if class_eq cls (value BERSERKER) then
    self |> add_strength 4 |> add_health 20 |> add_defense (-1)
  else if class_eq cls (value PALADIN) then
    self |> add_strength 1 |> add_charisma 2 |> add_defense 2 |> add_health 10
  else if class_eq cls (value NECROMANCER) then
    self |> add_intelligence 3 |> add_charisma 1 |> add_health (-5)
  else if class_eq cls (value DRUID) then
    self |> add_charisma 2 |> add_perception 1 |> add_health 5
  else if class_eq cls (value BARD) then
    self |> add_charisma 2 |> add_luck 1 |> add_attack 1
  else if class_eq cls (value MONK) then
    self |> add_charisma 2 |> add_strength 1 |> add_health 5
  else if class_eq cls (value RANGER) then
    self |> add_dexterity 3 |> add_perception 2 |> add_attack 1
  else if class_eq cls (value SORCERER) then
    self |> add_intelligence 4 |> add_luck 1 |> add_attack 2
  else if class_eq cls (value WARLOCK) then
    self |> add_charisma 3 |> add_luck 2 |> add_health (-10)
  else if class_eq cls (value WIZARD) then
    self |> add_intelligence 4 |> add_luck 1 |> add_attack 2
  else if class_eq cls (value BARBARIAN) then
    self |> add_strength 4 |> add_defense 2 |> add_health 20
  else if class_eq cls (value ARTIFICER) then
    self |> add_intelligence 3 |> add_luck 1 |> add_attack 1
  else if class_eq cls (value BLOODHUNTER) then
    self |> add_strength 3 |> add_dexterity 1 |> add_health 10
  else if class_eq cls (value GRUNT) then
    self |> add_strength 1 |> add_health 5
  else self.

(** *** Construction *)

(** The values [random.randint(1, 10)] hands to the six default
    factories, one per attribute. *)
Record Rolls : Type := mkRolls {
  roll_strength : Z;
  roll_perception : Z;
  roll_dexterity : Z;
  roll_intelligence : Z;
  roll_charisma : Z;
  roll_luck : Z
}.

(** The arguments of [Character(...)]; [None] is an argument left out
    (for [inventory] also an explicit [None]). *)
Record InitArgs : Type := mkArgs {
  arg_name : string;
  arg_character_class : ClassField;
  arg_strength : option Z;
  arg_perception : option Z;
  arg_dexterity : option Z;
  arg_intelligence : option Z;
  arg_charisma : option Z;
  arg_luck : option Z;
  arg_level : option Z;
  arg_health : option Z;
  arg_attack : option Z;
  arg_defense : option Z;
  arg_inventory : option (list ItemRef)
}.

(** [Character.__post_init__]; [inventory0] is the [inventory] attribute
    as the generated [__init__] left it. *)
Definition __post_init__ (inventory0 : option (list ItemRef))
    (self : Character) : Character :=
  let self :=
    match inventory0 with
    | None => set_inventory [] self
    | Some _ => self
    end in
  let self :=
    set_character_class
      (match character_class self with
       | EnumMember c => Str (value c)   (* isinstance(..., CharacterClass) *)
       | Str s => Str s
       end) self in
  _apply_class_bonuses self.

(** [Character(...)]: the generated [__init__] stores the arguments or
    their defaults, then calls [__post_init__]. *)
Definition Character_init (r : Rolls) (a : InitArgs) : Character :=
  __post_init__ (arg_inventory a)
    {| name := arg_name a;
       character_class := arg_character_class a;
       strength := default (roll_strength r) (arg_strength a);
       perception := default (roll_perception r) (arg_perception a);
       dexterity := default (roll_dexterity r) (arg_dexterity a);
       intelligence := default (roll_intelligence r) (arg_intelligence a);
       charisma := default (roll_charisma r) (arg_charisma a);
       luck := default (roll_luck r) (arg_luck a);
       level := default 1 (arg_level a);
       health := default 100 (arg_health a);
       attack := default 10 (arg_attack a);
       defense := default 5 (arg_defense a);
       inventory := default [] (arg_inventory a) |}.

(** *** Methods *)

(** [Potion.consume] *)
Definition consume (potion_type : PotionType) (amount : Z) : Z * list Report :=
  (amount, [Drinking potion_type amount]).

(** The local [damage_taken] of [take_damage]. *)
Definition damage_taken (amount : Z) (self : Character) : Z :=
  Z.max 0 (amount - defense self).

(** [Character.take_damage] *)
Definition take_damage (amount : Z) (self : Character) : Character * list Report :=
  let self := set_health (health self - damage_taken amount self) self in
  if health self <=? 0 then
    (set_health 0 self, [Defeated (name self)])
  else
    (self, [TookDamage (name self) amount (health self)]).

(** [Character.attack_enemy]: the attacker is not changed, the result is
    the enemy object after the call. *)
Definition attack_enemy (self enemy : Character) : Character * list Report :=
  let '(enemy', out) := take_damage (attack self) enemy in
  (enemy', Attacks (name self) (name enemy) (attack self) :: out).

(** [Character.add_item] *)
Definition add_item (item : ItemRef) (self : Character) : Character * list Report :=
  (set_inventory (inventory self ++ [item]) self,
   [PickedUp (name self) (obj item)]).

(** [Character.use_consumable] *)
Definition use_consumable (consumable : ItemRef) (self : Character)
    : Result (Character * list Report) :=
  if py_in consumable (inventory self) then
    match obj consumable with
    | Potion _ _ potion_type amount =>
        let '(healed_amount, out1) := consume potion_type amount in
        let self := add_health healed_amount self in
        let out2 := [Healed (name self) healed_amount (health self)] in
        match list_remove consumable (inventory self) with
        | Returns l => Returns (set_inventory l self, out1 ++ out2)
        | Raises e => Raises e
        end
    | other => Returns (self, [NotConsumable (item_name other)])
    end
  else
    Returns (self, [DoesNotHave (name self) (item_name (obj consumable))]).

(** ** A world of characters *)

(** The character objects of a program, named by their index. *)
Definition World : Type := list Character.

Inductive Call : Type :=
  | CallTakeDamage (i : nat) (amount : Z)
  | CallAttackEnemy (i j : nat)
  | CallAddItem (i : nat) (item : ItemRef)
  | CallUseConsumable (i : nat) (item : ItemRef).

(** One method call on the world.  A call through an index that names no
    character cannot be written in the program and is skipped. *)
Definition call (k : Call) (w : World) : Result (World * list Report) :=
  match k with
  | CallTakeDamage i amount =>
      match w !! i with
      | Some c => let '(c', out) := take_damage amount c in
                  Returns (<[i := c']> w, out)
      | None => Returns (w, [])
      end
  | CallAttackEnemy i j =>
      match w !! i, w !! j with
      | Some c, Some e => let '(e', out) := attack_enemy c e in
                          Returns (<[j := e']> w, out)
      | _, _ => Returns (w, [])
      end
  | CallAddItem i item =>
      match w !! i with
      | Some c => let '(c', out) := add_item item c in
                  Returns (<[i := c']> w, out)
      | None => Returns (w, [])
      end
  | CallUseConsumable i item =>
      match w !! i with
      | Some c =>
          match use_consumable item c with
          | Returns (c', out) => Returns (<[i := c']> w, out)
          | Raises e => Raises e
          end
      | None => Returns (w, [])
      end
  end.

(** A sequence of calls, stopping at the first exception. *)
Fixpoint run (ks : list Call) (w : World) : Result (World * list Report) :=
  match ks with
  | [] => Returns (w, [])
  | k :: ks' =>
      match call k w with
      | Returns (w', out) =>
          match run ks' w' with
          | Returns (w'', out') => Returns (w'', out ++ out')
          | Raises e => Raises e
          end
      | Raises e => Raises e
      end
  end.

(** The characters a program constructs, each from its arguments and the
    rolls of its default factories. *)
Definition construct (specs : list (Rolls * InitArgs)) : World :=
  map (fun s => Character_init (fst s) (snd s)) specs.

(** A program: constructions, then calls. *)
Definition program (specs : list (Rolls * InitArgs)) (ks : list Call)
    : Result (World * list Report) :=
  run ks (construct specs).

(** ** Scenarios and derived notions used in the statements *)

(** [n] successive calls [self.take_damage(amount)]. *)
Fixpoint hits (n : nat) (amount : Z) (self : Character) : Character :=
  match n with
  | O => self
  | S n' => hits n' amount (fst (take_damage amount self))
  end.

(** The constructor arguments with [character_class] replaced. *)
Definition with_class (f : ClassField) (a : InitArgs) : InitArgs :=
  mkArgs (arg_name a) f (arg_strength a) (arg_perception a) (arg_dexterity a)
    (arg_intelligence a) (arg_charisma a) (arg_luck a) (arg_level a)
    (arg_health a) (arg_attack a) (arg_defense a) (arg_inventory a).

(** [Character(name=n, character_class=f)] with keyword overrides for
    [health], [attack] and [defense] only. *)
Definition combat_args (n : string) (f : ClassField) (h a d : option Z) : InitArgs :=
  mkArgs n f None None None None None None None h a d None.

(** The goblin of [main]:
    [Character(name="Goblin", character_class="Grunt", health=30, attack=5, defense=2)]. *)
Definition goblin (r : Rolls) : Character :=
  Character_init r (combat_args "Goblin" (Str "Grunt") (Some 30) (Some 5) (Some 2)).

Definition rolls5 : Rolls := mkRolls 5 5 5 5 5 5.

(** How many entries of [l] compare equal to [x]. *)
Definition count_equal (x : ItemRef) (l : list ItemRef) : nat :=
  length (List.filter (fun y => py_eq y x) l).

(** What the specification says of a negative [amount]: for some
    character [take_damage] raises the health, the subtraction
    [self.health -= damage_taken] being what raises it. *)
Definition negative_amount_heals : Prop :=
  exists (c : Character) (amount : Z),
    amount < 0 /\
    health c < health (fst (take_damage amount c)) /\
    health c < health c - damage_taken amount c.

(** The healing potion of [main], and a hero to carry it. *)
Definition healing_potion : Item :=
  Potion "Healing Potion" "Restores health." HEALTH 2.

(** The sword of [main]; 7 stands for the durability its factory drew. *)
Definition sword : Item := Weapon "Sword of Power" "A mighty sword." 3 7.

(** A potion that takes health away. *)
Definition poison : Item := Potion "Poison" "Tastes odd." HEALTH (-200).

(** A mage created with 3 points of health. *)
Definition frail_mage : Rolls * InitArgs :=
  (rolls5, combat_args "Merlin" (Str "Mage") (Some 3) None None).

(** The hero and the goblin of [main], and its calls followed by the use
    of the potion picked up. *)
Definition main_specs : list (Rolls * InitArgs) :=
  [(rolls5, combat_args "Arthur" (Str "Knight") None None None);
   (rolls5, combat_args "Goblin" (Str "Grunt") (Some 30) (Some 5) (Some 2))].

Definition main_calls : list Call :=
  [CallAttackEnemy 0 1; CallAttackEnemy 1 0; CallAttackEnemy 0 1;
   CallAddItem 0 (mkRef 1 sword); CallAddItem 0 (mkRef 2 healing_potion);
   CallUseConsumable 0 (mkRef 2 healing_potion)].

(** [Character(name="Arthur", character_class="Knight")] *)
Definition hero (r : Rolls) : Character :=
  Character_init r (combat_args "Arthur" (Str "Knight") None None None).

(** [amount] of a potion (0 for the classes that have no such field;
    only read under [isinstance_Potion]). *)
Definition potion_amount (i : Item) : Z :=
  match i with Potion _ _ _ a => a | _ => 0 end.

(** Every character of the world has a health of at least 0. *)
Definition health_ok (w : World) : Prop :=
  Forall (fun c => 0 <= health c) w.

(** The potion handed to a [use_consumable] call heals by at least 0. *)
Definition potion_ok (k : Call) : Prop :=
  match k with
  | CallUseConsumable _ item =>
      isinstance_Potion (obj item) = true -> 0 <= potion_amount (obj item)
  | _ => True
  end.

(** The health invariant as the specification words it: whatever is
    constructed and called, no health is negative afterwards. *)
Definition health_never_negative : Prop :=
  forall specs ks w out,
    program specs ks = Returns (w, out) -> health_ok w.

(** The effect of using a potion as the specification words it: the
    instance handed in is the one that leaves the inventory. *)
Definition use_removes_the_instance : Prop :=
  forall (c : Character) (p : ItemRef),
    isinstance_Potion (obj p) = true ->
    In p (inventory c) ->
    exists c' out,
      use_consumable p c = Returns (c', out) /\
      length (inventory c) = S (length (inventory c')) /\
      health c' = health c + potion_amount (obj p) /\
      ~ In p (inventory c').

(** ** The rest of the module: the bonuses as a table, [display_info], [main] *)

(** The nine attributes a branch of [_apply_class_bonuses] may change. *)
Record Bonus : Type := mkBonus {
  b_strength : Z;
  b_perception : Z;
  b_dexterity : Z;
  b_intelligence : Z;
  b_charisma : Z;
  b_luck : Z;
  b_health : Z;
  b_attack : Z;
  b_defense : Z
}.

(** The augmented assignments of each branch of the chain, collected per
    member of the enumeration: a second reading of the same source lines,
    to be compared with [_apply_class_bonuses]. *)
Definition bonus_table (c : CharacterClass) : Bonus :=
  (*                     str per dex int cha luck health attack defense *)
  match c with
  | KNIGHT      => mkBonus 2 0 0 0 0 0 10 0 1
  | MAGE        => mkBonus 0 0 0 3 0 0 (-5) 2 0
  | ROGUE       => mkBonus 0 1 3 0 0 0 0 1 0
  | ARCHER      => mkBonus 0 2 2 0 0 0 0 1 0
  | CLERIC      => mkBonus 0 0 0 1 2 0 5 0 0
  | WARRIOR     => mkBonus 3 0 0 0 0 0 15 0 2
  | ASSASSIN    => mkBonus 0 0 4 0 0 1 (-10) 2 0
  | BERSERKER   => mkBonus 4 0 0 0 0 0 20 0 (-1)
  | PALADIN     => mkBonus 1 0 0 0 2 0 10 0 2
  | NECROMANCER => mkBonus 0 0 0 3 1 0 (-5) 0 0
  | DRUID       => mkBonus 0 1 0 0 2 0 5 0 0
  | BARD        => mkBonus 0 0 0 0 2 1 0 1 0
  | MONK        => mkBonus 1 0 0 0 2 0 5 0 0
  | RANGER      => mkBonus 0 2 3 0 0 0 0 1 0
  | SORCERER    => mkBonus 0 0 0 4 0 1 0 2 0
  | WARLOCK     => mkBonus 0 0 0 0 3 2 (-10) 0 0
  | WIZARD      => mkBonus 0 0 0 4 0 1 0 2 0
  | BARBARIAN   => mkBonus 4 0 0 0 0 0 20 0 2
  | ARTIFICER   => mkBonus 0 0 0 3 0 1 0 1 0
  | BLOODHUNTER => mkBonus 3 0 1 0 0 0 10 0 0
  | GRUNT       => mkBonus 1 0 0 0 0 0 5 0 0
  end.

(** A character with the deltas of [b] added. *)
Definition apply_bonus (b : Bonus) (c : Character) : Character :=
  mkCharacter (name c) (character_class c)
    (strength c + b_strength b) (perception c + b_perception b)
    (dexterity c + b_dexterity b) (intelligence c + b_intelligence b)
    (charisma c + b_charisma b) (luck c + b_luck b) (level c)
    (health c + b_health b) (attack c + b_attack b)
    (defense c + b_defense b) (inventory c).

(** The lines [display_info] prints, one constructor per [print]. *)
Inductive InfoLine : Type :=
  | Header (name : string)
  | ClassLine (cls : ClassField)
  | LevelLine (level : Z)
  | HealthLine (health : Z)
  | AttackLine (attack : Z)
  | DefenseLine (defense : Z)
  | InventoryLine (items : string).

(** [', '.join(item.name for item in self.inventory) if self.inventory
    else 'Empty']: a list is true when it is not empty. *)
Definition inventory_text (l : list ItemRef) : string :=
  match l with
  | [] => "Empty"
  | _ :: _ => String.concat ", " (map (fun item => item_name (obj item)) l)
  end.

(** [Character.display_info] *)
Definition display_info (self : Character) : list InfoLine :=
  [Header (name self);
   ClassLine (character_class self);
   LevelLine (level self);
   HealthLine (health self);
   AttackLine (attack self);
   DefenseLine (defense self);
   InventoryLine (inventory_text (inventory self))].

(** Everything [main] sends to the display sink. *)
Inductive Printed : Type :=
  | Said (r : Report)
  | Shown (l : InfoLine)
  | Banner (text : string).

(** [main]: the two constructions, the three attacks, the two pick-ups,
    with the [display_info] calls in between.  [r_hero] and [r_goblin]
    are the rolls of the two constructors, [durability] the one drawn for
    the sword; the result is the hero and the goblin at the end, and the
    output.  The banners are printed after an empty line. *)
Definition main (r_hero r_goblin : Rolls) (durability : Z)
    : Character * Character * list Printed :=
  let hero :=
    Character_init r_hero (combat_args "Arthur" (Str "Knight") None None None) in
  let goblin :=
    Character_init r_goblin
      (combat_args "Goblin" (Str "Grunt") (Some 30) (Some 5) (Some 2)) in
  let out0 := map Shown (display_info hero) ++ map Shown (display_info goblin) in
  let '(goblin, out1) := attack_enemy hero goblin in
  let '(hero, out2) := attack_enemy goblin hero in
  let '(goblin, out3) := attack_enemy hero goblin in
  let out4 := map Shown (display_info hero) ++ map Shown (display_info goblin) in
  let sword_ := mkRef 1 (Weapon "Sword of Power" "A mighty sword." 3 durability) in
  let potion := mkRef 2 (Potion "Healing Potion" "Restores health." HEALTH 2) in
  let '(hero, out5) := add_item sword_ hero in
  let '(hero, out6) := add_item potion hero in
  let out7 := map Shown (display_info hero) in
  (hero, goblin,
   out0 ++ [Banner "--- Battle Start ---"]
     ++ map Said (out1 ++ out2 ++ out3)
     ++ [Banner "--- After Battle ---"] ++ out4
     ++ map Said (out5 ++ out6) ++ out7).

(** [c'] is [c] but for its health and its inventory. *)
Definition same_but_health_inventory (c c' : Character) : Prop :=
  c' = set_inventory (inventory c') (set_health (health c') c).

(** The rolls are what [random.randint(1, 10)] can return. *)
Definition rolls_in_range (r : Rolls) : Prop :=
  (1 <= roll_strength r <= 10) /\ (1 <= roll_perception r <= 10) /\
  (1 <= roll_dexterity r <= 10) /\ (1 <= roll_intelligence r <= 10) /\
  (1 <= roll_charisma r <= 10) /\ (1 <= roll_luck r <= 10).

(** [n] successive calls [self.use_consumable(consumable)]; the result
    is the character after the last one. *)
Fixpoint use_n (n : nat) (consumable : ItemRef) (self : Character)
    : Result Character :=
  match n with
  | O => Returns self
  | S n' =>
      match use_consumable consumable self with
      | Returns (self', _) => use_n n' consumable self'
      | Raises e => Raises e
      end
  end.

(** * Properties *)

(** ** Assignments and the fields they leave alone *)

Lemma health_set_health v c : health (set_health v c) = v.
Proof. reflexivity. Qed.

Lemma set_health_set_health v v' c : set_health v (set_health v' c) = set_health v c.
Proof. reflexivity. Qed.

Lemma set_health_same c : set_health (health c) c = c.
Proof. by destruct c. Qed.

Lemma inventory_set_inventory l c : inventory (set_inventory l c) = l.
Proof. reflexivity. Qed.

(** ** [take_damage] *)

Lemma damage_taken_nonneg amount c : 0 <= damage_taken amount c.
Proof. unfold damage_taken. lia. Qed.

(** The object after [take_damage] is the object before with [health]
    reassigned, whichever branch reports. *)
Lemma take_damage_state amount c :
  fst (take_damage amount c) =
  set_health (Z.max 0 (health c - damage_taken amount c)) c.
Proof.
  unfold take_damage. rewrite health_set_health.
  destruct (Z.leb_spec (health c - damage_taken amount c) 0) as [Hle | Hgt]; simpl.
  - rewrite set_health_set_health. f_equal. lia.
  - f_equal. lia.
Qed.

Lemma take_damage_health amount c :
  health (fst (take_damage amount c)) =
  Z.max 0 (health c - damage_taken amount c).
Proof. by rewrite take_damage_state. Qed.

Lemma take_damage_health_nonneg amount c :
  0 <= health (fst (take_damage amount c)).
Proof. rewrite take_damage_health. lia. Qed.

Lemma take_damage_defense amount c :
  defense (fst (take_damage amount c)) = defense c.
Proof. by rewrite take_damage_state. Qed.

(** C1: for a character with health [h] and defense [d >= 0] and a
    non-negative [amount], [take_damage amount] leaves the character with
    its health set to [max 0 (h - max 0 (amount - d))], every other
    attribute as it was. *)
Theorem C1_take_damage_sets_health (c : Character) (amount : Z) :
  0 <= defense c ->
  0 <= amount ->
  fst (take_damage amount c) =
  set_health (Z.max 0 (health c - Z.max 0 (amount - defense c))) c.
Proof. intros _ _. apply take_damage_state. Qed.

Lemma C1_take_damage_sets_health_witness :
  fst (take_damage 5 (goblin rolls5)) =
  set_health (Z.max 0 (35 - Z.max 0 (5 - 2))) (goblin rolls5).
Proof.
  apply (C1_take_damage_sets_health (goblin rolls5) 5); simpl; lia.
Defined.

(** ** The goblin scenario *)

Lemma hits_S n amount c :
  hits (S n) amount c = hits n amount (fst (take_damage amount c)).
Proof. reflexivity. Qed.

Lemma goblin_combat_stats r :
  health (goblin r) = 35 /\ attack (goblin r) = 5 /\ defense (goblin r) = 2.
Proof. by destruct r. Qed.

Lemma hits_defense n amount c : defense (hits n amount c) = defense c.
Proof.
  revert c. induction n as [| n IH]; intros c; [done |].
  by rewrite hits_S, IH, take_damage_defense.
Qed.

(** While the health stays above the damage of one hit, [n] hits cost
    [n] times that damage. *)
Lemma hits_health n amount c :
  Z.of_nat n * damage_taken amount c < health c ->
  health (hits n amount c) = health c - Z.of_nat n * damage_taken amount c.
Proof.
  revert c. induction n as [| n IH]; intros c Hlt.
  - simpl. lia.
  - pose proof (damage_taken_nonneg amount c) as Hd.
    assert (Hsame : damage_taken amount (fst (take_damage amount c))
                    = damage_taken amount c).
    { unfold damage_taken. by rewrite take_damage_defense. }
    rewrite hits_S, IH; rewrite Hsame, take_damage_health; lia.
Qed.

(** C4, as the code has it: the Grunt bonus is added to the supplied
    health, so the goblin starts at 35; each [take_damage 5] costs
    [max 0 (5 - 2) = 3]; the healths after 0..6 hits are 35, 32, ..., 17,
    and after the sixth hit the goblin stands at 17, above 0. *)
Theorem C4_goblin_six_hits (r : Rolls) :
  health (goblin r) = 35 /\
  damage_taken 5 (goblin r) = 3 /\
  map (fun n => health (hits n 5 (goblin r))) [0; 1; 2; 3; 4; 5; 6]%nat
    = [35; 32; 29; 26; 23; 20; 17] /\
  health (hits 6 5 (goblin r)) = 17 /\
  0 < health (hits 6 5 (goblin r)).
Proof.
  destruct (goblin_combat_stats r) as (Hh & _ & Hd).
  assert (Hdmg : damage_taken 5 (goblin r) = 3).
  { unfold damage_taken. rewrite Hd. reflexivity. }
  assert (Hn : forall n, (n <= 6)%nat ->
             health (hits n 5 (goblin r)) = 35 - Z.of_nat n * 3).
  { intros n Hle. rewrite hits_health; rewrite Hdmg, Hh; lia. }
  split; [exact Hh |]. split; [exact Hdmg |].
  split; [| split].
  - cbn [map]. rewrite !Hn by lia. reflexivity.
  - rewrite Hn by lia. reflexivity.
  - rewrite Hn by lia. lia.
Qed.

(** C4, as the specification words it (six hits leave health 12), fails:
    the goblin is left with 17. *)
Lemma C4_goblin_health_is_not_12 :
  health (hits 6 5 (goblin rolls5)) <> 12.
Proof. vm_compute. discriminate. Qed.

(** ** Negative amounts *)

(** A negative [amount] against a non-negative defense deals no damage:
    the health is only clamped. *)
Lemma take_damage_negative_amount amount c :
  amount < 0 -> 0 <= defense c ->
  damage_taken amount c = 0 /\
  health (fst (take_damage amount c)) = Z.max 0 (health c).
Proof.
  intros Ha Hd.
  assert (H0 : damage_taken amount c = 0) by (unfold damage_taken; lia).
  split; [done |]. rewrite take_damage_health, H0. f_equal. lia.
Qed.

(** C5, as the code has it: [damage_taken] is never negative, so for no
    [amount], negative or not, does the subtraction raise the health; a
    character whose health is not negative is never healed by
    [take_damage]; the one rise there is comes from the clamp, which
    lifts a health that was already negative to 0. *)
Theorem C5_take_damage_never_heals (c : Character) (amount : Z) :
  0 <= damage_taken amount c /\
  health c - damage_taken amount c <= health c /\
  (0 <= health c -> health (fst (take_damage amount c)) <= health c) /\
  (health c < health (fst (take_damage amount c)) ->
   health c < 0 /\ health (fst (take_damage amount c)) = 0).
Proof.
  pose proof (damage_taken_nonneg amount c) as Hd.
  rewrite take_damage_health. repeat split; lia.
Qed.

(** C5, as the specification words it, fails: no negative amount heals
    through the subtraction. *)
Lemma C5_no_healing_through_subtraction : ~ negative_amount_heals.
Proof.
  intros (c & amount & _ & _ & Hlt).
  pose proof (damage_taken_nonneg amount c). lia.
Qed.

(** With the defaults of [main]'s hero, a negative amount changes
    nothing. *)
Lemma negative_amount_on_hero :
  take_damage (-50) (hero rolls5) =
  (hero rolls5, [TookDamage "Arthur" (-50) 110]).
Proof. reflexivity. Qed.

(** ** Equality of items, membership and removal *)

Lemma PotionType_eq_refl t : PotionType_eq t t = true.
Proof. by destruct t. Qed.

Lemma Item_eq_refl i : Item_eq i i = true.
Proof.
  destruct i; simpl;
    rewrite ?String.eqb_refl, ?Z.eqb_refl, ?PotionType_eq_refl; reflexivity.
Qed.

Lemma py_eq_refl x : py_eq x x = true.
Proof. unfold py_eq. by rewrite Nat.eqb_refl. Qed.

(** Objects with equal fields compare equal, whatever their identities. *)
Lemma py_eq_fields x y : obj x = obj y -> py_eq x y = true.
Proof.
  intros Heq. unfold py_eq. rewrite Heq, Item_eq_refl. apply orb_true_r.
Qed.

(** An object that is in the list is found by [in]. *)
Lemma In_py_in x l : In x l -> py_in x l = true.
Proof.
  intros Hin. unfold py_in. apply existsb_exists.
  exists x. split; [done | apply py_eq_refl].
Qed.

Lemma py_in_false_not_In x l : py_in x l = false -> ~ In x l.
Proof. intros Hf Hin. apply In_py_in in Hin. congruence. Qed.

Lemma py_in_app x l1 l2 : py_in x (l1 ++ l2) = py_in x l1 || py_in x l2.
Proof. apply existsb_app. Qed.

(** [in] succeeds exactly when the list splits at a first equal entry. *)
Lemma py_in_split x l :
  py_in x l = true ->
  exists l1 q l2,
    l = l1 ++ q :: l2 /\ py_in x l1 = false /\ py_eq q x = true.
Proof.
  induction l as [| y l IH]; simpl; [discriminate |].
  destruct (py_eq y x) eqn:Hy; simpl.
  - intros _. by exists [], y, l.
  - intros Hin. destruct (IH Hin) as (l1 & q & l2 & -> & Hl1 & Hq).
    exists (y :: l1), q, l2. simpl. by rewrite Hy.
Qed.

(** [remove] deletes the first equal entry and keeps the rest in order. *)
Lemma list_remove_first x l1 q l2 :
  py_in x l1 = false ->
  py_eq q x = true ->
  list_remove x (l1 ++ q :: l2) = Returns (l1 ++ l2).
Proof.
  induction l1 as [| y l1 IH]; simpl; intros Hl1 Hq.
  - by rewrite Hq.
  - apply orb_false_iff in Hl1 as [Hy Hl1]. by rewrite Hy, IH.
Qed.

(** Under the guard [x in l], [l.remove(x)] does not raise. *)
Lemma list_remove_returns x l :
  py_in x l = true -> exists l', list_remove x l = Returns l'.
Proof.
  intros Hin. destruct (py_in_split x l Hin) as (l1 & q & l2 & -> & Hl1 & Hq).
  exists (l1 ++ l2). by apply list_remove_first.
Qed.

Lemma list_remove_raises x l :
  py_in x l = false -> list_remove x l = Raises ValueError.
Proof.
  induction l as [| y l IH]; simpl; [done |].
  intros Hf. apply orb_false_iff in Hf as [Hy Hl]. by rewrite Hy, IH.
Qed.

Lemma count_equal_app x l1 l2 :
  count_equal x (l1 ++ l2) = (count_equal x l1 + count_equal x l2)%nat.
Proof. unfold count_equal. by rewrite List.filter_app, length_app. Qed.

Lemma count_equal_zero x l : py_in x l = false <-> count_equal x l = 0%nat.
Proof.
  unfold count_equal, py_in. induction l as [| y l IH]; simpl; [done |].
  destruct (py_eq y x); simpl; [split; discriminate | exact IH].
Qed.

Lemma count_equal_cons_eq x q l :
  py_eq q x = true -> count_equal x (q :: l) = S (count_equal x l).
Proof. intros Hq. unfold count_equal. simpl. by rewrite Hq. Qed.

(** ** [use_consumable] *)

(** The potion branch, spelled out on a list split at the first entry
    equal to the potion handed in. *)
Lemma use_consumable_potion c p n d t a l1 q l2 :
  obj p = Potion n d t a ->
  inventory c = l1 ++ q :: l2 ->
  py_eq q p = true ->
  py_in p l1 = false ->
  use_consumable p c =
  Returns (set_inventory (l1 ++ l2) (add_health a c),
           [Drinking t a; Healed (name c) a (health c + a)]).
Proof.
  intros Hp Hinv Hq Hl1. unfold use_consumable.
  assert (Hin : py_in p (inventory c) = true).
  { rewrite Hinv, py_in_app. simpl. rewrite Hq. apply orb_true_r. }
  rewrite Hin, Hp. cbn [consume add_health inventory set_health].
  by rewrite Hinv, (list_remove_first p l1 q l2 Hl1 Hq).
Qed.

(** [use_consumable] never lets the [ValueError] of [remove] escape. *)
Lemma use_consumable_returns p c :
  exists c' out, use_consumable p c = Returns (c', out).
Proof.
  unfold use_consumable. destruct (py_in p (inventory c)) eqn:Hin; [| eauto].
  destruct (obj p) eqn:Hp; eauto.
  cbn [consume add_health inventory set_health].
  destruct (list_remove_returns p (inventory c) Hin) as [l' ->]. eauto.
Qed.

(** What a call to [use_consumable] does to the health. *)
Lemma use_consumable_health p c c' out :
  use_consumable p c = Returns (c', out) ->
  health c' = health c \/
  (isinstance_Potion (obj p) = true /\
   health c' = health c + potion_amount (obj p)).
Proof.
  unfold use_consumable. destruct (py_in p (inventory c)) eqn:Hin.
  - destruct (obj p) eqn:Hp; try (intros [= <- _]; by left).
    cbn [consume add_health inventory set_health].
    destruct (list_remove p (inventory c)); [| discriminate].
    intros [= <- _]. right. by split.
  - intros [= <- _]. by left.
Qed.

(** C3, as the code has it: using a potion [p] that [in] finds in the
    inventory returns normally, shortens the inventory by exactly one
    entry and adds exactly [p]'s amount to the health (no clamp); the
    entry removed is the first one that compares equal to [p] (the
    inventory splits as [l1 ++ q :: l2] with [q] equal to [p] and nothing
    in [l1] equal to [p], and [l1 ++ l2] is what is left, nothing else of
    the character changing), so the number of entries equal to [p] drops
    by one, and when [p] was the only such entry nothing equal to [p],
    and so not [p] itself, is left. *)
Theorem C3_use_potion (c : Character) (p : ItemRef) :
  isinstance_Potion (obj p) = true ->
  py_in p (inventory c) = true ->
  exists c' out,
    use_consumable p c = Returns (c', out) /\
    length (inventory c) = S (length (inventory c')) /\
    health c' = health c + potion_amount (obj p) /\
    count_equal p (inventory c) = S (count_equal p (inventory c')) /\
    (count_equal p (inventory c) = 1%nat ->
     py_in p (inventory c') = false /\ ~ In p (inventory c')) /\
    exists l1 q l2,
      inventory c = l1 ++ q :: l2 /\
      py_in p l1 = false /\
      py_eq q p = true /\
      c' = set_inventory (l1 ++ l2) (add_health (potion_amount (obj p)) c).
Proof.
  intros Hpot Hin.
  destruct (obj p) as [| | | | n d t a] eqn:Hp; try discriminate.
  destruct (py_in_split p _ Hin) as (l1 & q & l2 & Hinv & Hl1 & Hq).
  eexists _, _. split; [by eapply use_consumable_potion |].
  cbn [inventory set_inventory health add_health set_health potion_amount].
  assert (Hcount : count_equal p (inventory c)
                   = S (count_equal p (l1 ++ l2))).
  { rewrite Hinv, !count_equal_app, (count_equal_cons_eq p q l2 Hq). lia. }
  split; [rewrite Hinv, !length_app; simpl; lia |].
  split; [reflexivity |].
  split; [exact Hcount |].
  split.
  - intros Hone.
    assert (Hnone : py_in p (l1 ++ l2) = false)
      by (apply count_equal_zero; lia).
    split; [exact Hnone | by apply py_in_false_not_In].
  - by exists l1, q, l2.
Qed.

Lemma C3_use_potion_witness :
  exists c' out,
    use_consumable (mkRef 3 healing_potion)
      (set_inventory
         [mkRef 1 sword; mkRef 2 healing_potion; mkRef 3 healing_potion]
         (hero rolls5))
    = Returns (c', out) /\
    length [mkRef 1 sword; mkRef 2 healing_potion; mkRef 3 healing_potion]
    = S (length (inventory c')) /\
    health c' = 110 + 2 /\
    count_equal (mkRef 3 healing_potion)
      [mkRef 1 sword; mkRef 2 healing_potion; mkRef 3 healing_potion]
    = S (count_equal (mkRef 3 healing_potion) (inventory c')) /\
    (count_equal (mkRef 3 healing_potion)
       [mkRef 1 sword; mkRef 2 healing_potion; mkRef 3 healing_potion]
     = 1%nat ->
     py_in (mkRef 3 healing_potion) (inventory c') = false /\
     ~ In (mkRef 3 healing_potion) (inventory c')) /\
    exists l1 q l2,
      [mkRef 1 sword; mkRef 2 healing_potion; mkRef 3 healing_potion]
      = l1 ++ q :: l2 /\
      py_in (mkRef 3 healing_potion) l1 = false /\
      py_eq q (mkRef 3 healing_potion) = true /\
      c' = set_inventory (l1 ++ l2)
             (add_health 2
                (set_inventory
                   [mkRef 1 sword; mkRef 2 healing_potion;
                    mkRef 3 healing_potion]
                   (hero rolls5))).
Proof.
  apply (C3_use_potion
           (set_inventory
              [mkRef 1 sword; mkRef 2 healing_potion; mkRef 3 healing_potion]
              (hero rolls5))
           (mkRef 3 healing_potion)); reflexivity.
Defined.

(** The split of [C3_use_potion] is the one at the first equal entry: a
    list has at most one split [l1 ++ q :: l2] with [q] equal to [p] and
    nothing in [l1] equal to [p]. *)
Lemma first_equal_split_unique p l1 q l2 l1' q' l2' :
  l1 ++ q :: l2 = l1' ++ q' :: l2' ->
  py_in p l1 = false -> py_eq q p = true ->
  py_in p l1' = false -> py_eq q' p = true ->
  l1 = l1' /\ q = q' /\ l2 = l2'.
Proof.
  revert l1'. induction l1 as [| x l1 IH]; intros [| x' l1']; simpl.
  - intros [= -> ->]. done.
  - intros [= -> _] _ Hq [Hx _]%orb_false_iff _. congruence.
  - intros [= -> _] [Hx _]%orb_false_iff _ _ Hq'. congruence.
  - intros [= -> Heq] [_ Hl1]%orb_false_iff Hq [_ Hl1']%orb_false_iff Hq'.
    destruct (IH l1' Heq Hl1 Hq Hl1' Hq') as (-> & -> & ->). done.
Qed.

(** Using the later of two equal potions removes the earlier one. *)
Lemma use_later_of_two_equal_potions :
  use_consumable (mkRef 3 healing_potion)
    (set_inventory
       [mkRef 1 sword; mkRef 2 healing_potion; mkRef 3 healing_potion]
       (hero rolls5)) =
  Returns (set_inventory [mkRef 1 sword; mkRef 3 healing_potion]
             (set_health 112 (hero rolls5)),
           [Drinking HEALTH 2; Healed "Arthur" 2 112]).
Proof. reflexivity. Qed.

(** C3, as the specification words it, fails: with two potions of equal
    fields in the inventory, using the second removes the first, and the
    instance handed in stays. *)
Lemma C3_used_instance_may_stay : ~ use_removes_the_instance.
Proof.
  intros Hclaim.
  destruct (Hclaim
              (set_inventory [mkRef 1 healing_potion; mkRef 2 healing_potion]
                 (hero rolls5))
              (mkRef 2 healing_potion))
    as (c' & out & Hrun & _ & _ & Hgone).
  - reflexivity.
  - simpl. tauto.
  - vm_compute in Hrun. injection Hrun as <- _.
    apply Hgone. simpl. tauto.
Qed.

(** C7: for an item that [in] does not find in the inventory,
    [use_consumable] returns normally, reports "does not have", and
    leaves the character (inventory and health included) as it was. *)
Theorem C7_use_absent_item (c : Character) (item : ItemRef) :
  py_in item (inventory c) = false ->
  use_consumable item c =
  Returns (c, [DoesNotHave (name c) (item_name (obj item))]).
Proof. intros Hin. unfold use_consumable. by rewrite Hin. Qed.

Lemma C7_use_absent_item_witness :
  use_consumable (mkRef 2 healing_potion)
    (set_inventory [mkRef 1 sword] (hero rolls5)) =
  Returns (set_inventory [mkRef 1 sword] (hero rolls5),
           [DoesNotHave "Arthur" "Healing Potion"]).
Proof.
  apply (C7_use_absent_item (set_inventory [mkRef 1 sword] (hero rolls5))
           (mkRef 2 healing_potion)).
  reflexivity.
Defined.

(** C8: for an item that is not a [Potion] and that [in] finds in the
    inventory, [use_consumable] returns normally, reports "is not a
    consumable item", and leaves the character (inventory and health
    included) as it was. *)
Theorem C8_use_non_potion (c : Character) (item : ItemRef) :
  isinstance_Potion (obj item) = false ->
  py_in item (inventory c) = true ->
  use_consumable item c =
  Returns (c, [NotConsumable (item_name (obj item))]).
Proof.
  intros Hnp Hin. unfold use_consumable. rewrite Hin.
  by destruct (obj item).
Qed.

Lemma C8_use_non_potion_witness :
  use_consumable (mkRef 1 sword)
    (set_inventory [mkRef 1 sword; mkRef 2 healing_potion] (hero rolls5)) =
  Returns (set_inventory [mkRef 1 sword; mkRef 2 healing_potion] (hero rolls5),
           [NotConsumable "Sword of Power"]).
Proof.
  apply (C8_use_non_potion
           (set_inventory [mkRef 1 sword; mkRef 2 healing_potion] (hero rolls5))
           (mkRef 1 sword)); reflexivity.
Defined.

(** C10: the potion handed to [use_consumable] is matched by field-wise
    equality, not identity: whatever the identity of [p], if the
    inventory holds an entry [q] with the same fields and no entry before
    [q] compares equal to [p], the call succeeds, heals by [p]'s amount
    and removes exactly that first entry [q], keeping the others in
    order. *)
Theorem C10_use_matches_by_fields
    (c : Character) (p q : ItemRef) (l1 l2 : list ItemRef) :
  isinstance_Potion (obj p) = true ->
  inventory c = l1 ++ q :: l2 ->
  obj q = obj p ->
  py_in p l1 = false ->
  exists out,
    use_consumable p c =
    Returns (set_inventory (l1 ++ l2) (add_health (potion_amount (obj p)) c),
             out).
Proof.
  intros Hpot Hinv Hobj Hl1.
  destruct (obj p) as [| | | | n d t a] eqn:Hp; try discriminate.
  eexists. eapply use_consumable_potion; eauto.
  apply py_eq_fields. congruence.
Qed.

Lemma C10_use_matches_by_fields_witness :
  exists out,
    use_consumable (mkRef 9 healing_potion)
      (set_inventory
         [mkRef 1 sword; mkRef 2 healing_potion; mkRef 3 healing_potion]
         (hero rolls5)) =
    Returns (set_inventory ([mkRef 1 sword] ++ [mkRef 3 healing_potion])
               (add_health 2
                  (set_inventory
                     [mkRef 1 sword; mkRef 2 healing_potion;
                      mkRef 3 healing_potion]
                     (hero rolls5))),
             out).
Proof.
  apply (C10_use_matches_by_fields
           (set_inventory
              [mkRef 1 sword; mkRef 2 healing_potion; mkRef 3 healing_potion]
              (hero rolls5))
           (mkRef 9 healing_potion) (mkRef 2 healing_potion)
           [mkRef 1 sword] [mkRef 3 healing_potion]); reflexivity.
Defined.

(** ** Construction *)

Lemma apply_class_bonuses_class c :
  character_class (_apply_class_bonuses c) = character_class c.
Proof.
  unfold _apply_class_bonuses.
  repeat (destruct (class_eq _ _); [reflexivity |]). reflexivity.
Qed.

Lemma apply_class_bonuses_inventory c :
  inventory (_apply_class_bonuses c) = inventory c.
Proof.
  unfold _apply_class_bonuses.
  repeat (destruct (class_eq _ _); [reflexivity |]). reflexivity.
Qed.

(** A label outside the enumeration fails every test of the chain. *)
Lemma class_eq_unknown s c :
  ~ In s class_labels -> class_eq (Str s) (value c) = false.
Proof.
  intros Hnot. simpl. apply String.eqb_neq. intros ->.
  apply Hnot. unfold class_labels. apply in_map.
  destruct c; simpl; tauto.
Qed.

Lemma apply_class_bonuses_unknown c s :
  character_class c = Str s ->
  ~ In s class_labels ->
  _apply_class_bonuses c = c.
Proof.
  intros Hcls Hnot. unfold _apply_class_bonuses. rewrite Hcls.
  by rewrite !(class_eq_unknown s _ Hnot).
Qed.

(** The hero of [main]: the Knight bonus on top of the defaults. *)
Lemma hero_stats r :
  strength (hero r) = roll_strength r + 2 /\
  defense (hero r) = 6 /\ health (hero r) = 110 /\ attack (hero r) = 10.
Proof. by destruct r. Qed.

(** C6: with a [character_class] string that is none of the 21 labels
    the constructor returns (it has no failing path) a character whose
    attributes and combat stats are exactly the supplied values, or the
    defaults where none is supplied; no bonus is added. *)
Theorem C6_unknown_class_no_bonus (r : Rolls) (a : InitArgs) (s : string) :
  ~ In s class_labels ->
  Character_init r (with_class (Str s) a) =
  {| name := arg_name a;
     character_class := Str s;
     strength := default (roll_strength r) (arg_strength a);
     perception := default (roll_perception r) (arg_perception a);
     dexterity := default (roll_dexterity r) (arg_dexterity a);
     intelligence := default (roll_intelligence r) (arg_intelligence a);
     charisma := default (roll_charisma r) (arg_charisma a);
     luck := default (roll_luck r) (arg_luck a);
     level := default 1 (arg_level a);
     health := default 100 (arg_health a);
     attack := default 10 (arg_attack a);
     defense := default 5 (arg_defense a);
     inventory := default [] (arg_inventory a) |}.
Proof.
  intros Hnot. unfold Character_init, __post_init__.
  rewrite (apply_class_bonuses_unknown _ s); [| | exact Hnot].
  - by destruct a as [? ? ? ? ? ? ? ? ? ? ? ? [inv |]].
  - by destruct a as [? ? ? ? ? ? ? ? ? ? ? ? [inv |]].
Qed.

Lemma C6_unknown_class_no_bonus_witness :
  Character_init rolls5
    (with_class (Str "Peasant")
       (combat_args "Tom" (Str "Peasant") (Some 30) None (Some 2))) =
  {| name := "Tom"; character_class := Str "Peasant";
     strength := 5; perception := 5; dexterity := 5; intelligence := 5;
     charisma := 5; luck := 5; level := 1; health := 30; attack := 10;
     defense := 2; inventory := [] |}.
Proof.
  apply (C6_unknown_class_no_bonus rolls5
           (combat_args "Tom" (Str "Peasant") (Some 30) None (Some 2))
           "Peasant").
  simpl. intuition discriminate.
Defined.

(** C9: handing the constructor a member of [CharacterClass] gives the
    same character as handing it the member's label, and the
    [character_class] it stores is that label, a string. *)
Theorem C9_enum_member_or_label (r : Rolls) (a : InitArgs) (c : CharacterClass) :
  Character_init r (with_class (EnumMember c) a) =
  Character_init r (with_class (Str (value c)) a) /\
  character_class (Character_init r (with_class (EnumMember c) a)) =
  Str (value c).
Proof.
  unfold Character_init, __post_init__.
  destruct a as [? ? ? ? ? ? ? ? ? ? ? ? [inv |]];
    (split; [reflexivity | by rewrite apply_class_bonuses_class]).
Qed.

(** No method assigns [character_class]: the label stored at construction
    stays. *)
Lemma methods_keep_class c :
  (forall amount, character_class (fst (take_damage amount c)) = character_class c) /\
  (forall item, character_class (fst (add_item item c)) = character_class c) /\
  (forall item c' out, use_consumable item c = Returns (c', out) ->
                       character_class c' = character_class c).
Proof.
  split; [| split].
  - intros amount. by rewrite take_damage_state.
  - done.
  - intros item c' out. unfold use_consumable.
    destruct (py_in item (inventory c)); [| by intros [= <- _]].
    destruct (obj item); try by intros [= <- _].
    cbn [consume add_health inventory set_health].
    destruct (list_remove item (inventory c)); [| discriminate].
    by intros [= <- _].
Qed.

(** ** The health invariant over sequences of calls *)

Lemma add_item_health item c : health (fst (add_item item c)) = health c.
Proof. reflexivity. Qed.

Lemma attack_enemy_health_nonneg c e : 0 <= health (fst (attack_enemy c e)).
Proof.
  unfold attack_enemy.
  pose proof (take_damage_health_nonneg (attack c) e) as H.
  by destruct (take_damage (attack c) e).
Qed.

Lemma use_consumable_health_nonneg item c c' out :
  0 <= health c ->
  (isinstance_Potion (obj item) = true -> 0 <= potion_amount (obj item)) ->
  use_consumable item c = Returns (c', out) ->
  0 <= health c'.
Proof.
  intros Hc Hamount Hrun.
  destruct (use_consumable_health _ _ _ _ Hrun) as [-> | [Hpot ->]]; [done |].
  specialize (Hamount Hpot). lia.
Qed.

(** One call returns and keeps every health at or above 0. *)
Lemma call_health_ok k w :
  health_ok w ->
  potion_ok k ->
  exists w' out, call k w = Returns (w', out) /\ health_ok w'.
Proof.
  unfold health_ok. intros Hw Hk. destruct k as [i amount | i j | i item | i item]; simpl.
  - destruct (w !! i) as [c |] eqn:Hi; [| eauto].
    pose proof (take_damage_health_nonneg amount c) as Hc.
    destruct (take_damage amount c) as [c' out].
    eexists _, _. split; [done |]. by apply Forall_insert.
  - destruct (w !! i) as [c |] eqn:Hi; [| eauto].
    destruct (w !! j) as [e |] eqn:Hj; [| eauto].
    pose proof (attack_enemy_health_nonneg c e) as He.
    destruct (attack_enemy c e) as [e' out].
    eexists _, _. split; [done |]. by apply Forall_insert.
  - destruct (w !! i) as [c |] eqn:Hi; [| eauto].
    assert (Hc : 0 <= health c) by exact (Forall_lookup_1 _ w i c Hw Hi).
    eexists _, _. split; [done |]. by apply Forall_insert.
  - destruct (w !! i) as [c |] eqn:Hi; [| eauto].
    assert (Hc : 0 <= health c) by exact (Forall_lookup_1 _ w i c Hw Hi).
    destruct (use_consumable_returns item c) as (c' & out & Hrun).
    rewrite Hrun. eexists _, _. split; [done |].
    apply Forall_insert; [done |].
    exact (use_consumable_health_nonneg item c c' out Hc Hk Hrun).
Qed.

Lemma run_health_ok ks w :
  health_ok w ->
  Forall potion_ok ks ->
  exists w' out, run ks w = Returns (w', out) /\ health_ok w'.
Proof.
  revert w. induction ks as [| k ks IH]; intros w Hw Hks; simpl.
  - eauto.
  - inversion Hks as [| ? ? Hk Hks']; subst.
    destruct (call_health_ok k w Hw Hk) as (w1 & out1 & -> & Hw1).
    destruct (IH w1 Hw1 Hks') as (w2 & out2 & -> & Hw2).
    eauto.
Qed.

(** C2, as the code has it: when every character leaves its constructor
    with a health of at least 0 and every potion handed to
    [use_consumable] has an amount of at least 0, any sequence of
    [take_damage], [attack_enemy], [add_item] and [use_consumable] calls
    runs to its end and leaves every health at or above 0. *)
Theorem C2_health_stays_nonneg
    (specs : list (Rolls * InitArgs)) (ks : list Call) :
  health_ok (construct specs) ->
  Forall potion_ok ks ->
  exists w out, program specs ks = Returns (w, out) /\ health_ok w.
Proof. intros Hw Hks. by apply run_health_ok. Qed.

Lemma C2_health_stays_nonneg_witness :
  exists w out, program main_specs main_calls = Returns (w, out) /\ health_ok w.
Proof.
  apply (C2_health_stays_nonneg main_specs main_calls).
  - repeat constructor; simpl; lia.
  - repeat constructor; simpl; intros; lia.
Defined.

(** C2, as the specification words it, fails already at construction: a
    Mage created with [health=3] starts at [-2]. *)
Lemma C2_health_can_be_negative : ~ health_never_negative.
Proof.
  intros Hclaim.
  assert (Hw : health_ok (construct [frail_mage])).
  { apply (Hclaim [frail_mage] [] _ []). reflexivity. }
  apply Forall_inv in Hw. vm_compute in Hw. by apply Hw.
Qed.

(** The other way below 0: a potion of negative amount. *)
Lemma negative_potion_breaks_health :
  health_ok (construct main_specs) /\
  match program main_specs
          [CallAddItem 0 (mkRef 3 poison); CallUseConsumable 0 (mkRef 3 poison)]
  with
  | Returns (w, _) => health <$> w = [-90; 35]
  | Raises _ => False
  end.
Proof.
  split; [repeat constructor; simpl; lia |].
  vm_compute. reflexivity.
Qed.

(** After [take_damage] the health is at least 0 whatever it was before. *)
Lemma take_damage_restores_health_ok amount c :
  0 <= health (fst (take_damage amount c)) /\
  (health (fst (take_damage amount c)) = 0 ->
   snd (take_damage amount c) = [Defeated (name c)]).
Proof.
  split; [apply take_damage_health_nonneg |].
  unfold take_damage. rewrite health_set_health.
  destruct (Z.leb_spec (health c - damage_taken amount c) 0); simpl; [done | lia].
Qed.

(** * Further properties of the module *)

(** ** The class bonuses *)

(** The labels of the enumeration are pairwise distinct: no branch of the
    chain is shadowed by an earlier one. *)
Lemma value_inj c1 c2 : value c1 = value c2 -> c1 = c2.
Proof. destruct c1, c2; simpl; intros H; try reflexivity; discriminate H. Qed.

Lemma set_class_apply_bonus b f c :
  apply_bonus b (set_character_class f c) = set_character_class f (apply_bonus b c).
Proof. reflexivity. Qed.

(** On a character whose class is the label of [c], the chain performs
    the assignments of [c]'s row and nothing else. *)
Lemma apply_class_bonuses_row c self :
  _apply_class_bonuses (set_character_class (Str (value c)) self) =
  apply_bonus (bonus_table c) (set_character_class (Str (value c)) self).
Proof.
  destruct self; destruct c; cbv [apply_bonus bonus_table];
    cbn; rewrite ?Z.add_0_r; reflexivity.
Qed.

(** X1: the [if]/[elif] chain is a table lookup.  For every member [c]
    of the enumeration, constructing with [c] (or with its label) gives
    the character that the same arguments give under a label outside the
    enumeration, with the deltas of [c]'s row added and the class field
    set to [c]'s label. *)
Theorem bonuses_are_a_table
    (r : Rolls) (a : InitArgs) (c : CharacterClass) (s : string) :
  ~ In s class_labels ->
  Character_init r (with_class (EnumMember c) a) =
  set_character_class (Str (value c))
    (apply_bonus (bonus_table c) (Character_init r (with_class (Str s) a))).
Proof.
  intros Hnot. unfold Character_init at 2. unfold __post_init__.
  rewrite (apply_class_bonuses_unknown _ s);
    [| by destruct a as [? ? ? ? ? ? ? ? ? ? ? ? [inv |]] | exact Hnot].
  unfold Character_init, __post_init__.
  destruct a as [? ? ? ? ? ? ? ? ? ? ? ? [inv |]];
    cbn [arg_inventory with_class arg_character_class character_class
         set_inventory set_character_class name strength perception dexterity
         intelligence charisma luck level health attack defense inventory
         arg_name arg_strength arg_perception arg_dexterity arg_intelligence
         arg_charisma arg_luck arg_level arg_health arg_attack arg_defense];
    match goal with
    | |- _apply_class_bonuses ?x = _ =>
        change x with (set_character_class (Str (value c)) x)
    end;
    rewrite apply_class_bonuses_row; reflexivity.
Qed.

Lemma bonuses_are_a_table_witness :
  Character_init rolls5
    (with_class (EnumMember BERSERKER)
       (combat_args "Olaf" (Str "x") (Some 50) None None)) =
  set_character_class (Str (value BERSERKER))
    (apply_bonus (bonus_table BERSERKER)
       (Character_init rolls5
          (with_class (Str "Peasant")
             (combat_args "Olaf" (Str "x") (Some 50) None None)))).
Proof.
  apply (bonuses_are_a_table rolls5
           (combat_args "Olaf" (Str "x") (Some 50) None None)
           BERSERKER "Peasant").
  simpl. intuition discriminate.
Defined.

Lemma apply_class_bonuses_enum_member c self :
  character_class self = EnumMember c -> _apply_class_bonuses self = self.
Proof. intros H. unfold _apply_class_bonuses. by rewrite H. Qed.

Lemma label_in_class_labels s :
  In s class_labels <-> exists c, s = value c.
Proof.
  unfold class_labels. rewrite in_map_iff. split.
  - intros (c & <- & _). by exists c.
  - intros (c & ->). exists c. split; [done |]. destruct c; simpl; tauto.
Qed.

(** Every row of the table changes something. *)
Lemma apply_bonus_changes c self : apply_bonus (bonus_table c) self <> self.
Proof.
  intros Heq.
  pose proof (f_equal strength Heq) as H1.
  pose proof (f_equal dexterity Heq) as H2.
  pose proof (f_equal intelligence Heq) as H3.
  pose proof (f_equal charisma Heq) as H4.
  destruct c; simpl in H1, H2, H3, H4; lia.
Qed.

(** X2: a character gets no bonus exactly when its class field is not
    the label of a member of the enumeration: a string outside the 21
    labels, or a member that was not converted to its label. *)
Theorem no_bonus_iff_not_a_label (self : Character) :
  _apply_class_bonuses self = self <->
  ~ exists c, character_class self = Str (value c).
Proof.
  split.
  - intros Hsame (c & Hcls).
    assert (Hself : self = set_character_class (Str (value c)) self).
    { destruct self. simpl in Hcls. by rewrite Hcls. }
    rewrite Hself, apply_class_bonuses_row, <- Hself in Hsame.
    by apply (apply_bonus_changes c self).
  - intros Hnone. destruct (character_class self) as [c | s] eqn:Hcls.
    + by apply (apply_class_bonuses_enum_member c).
    + apply (apply_class_bonuses_unknown self s Hcls).
      intros (c & ->)%label_in_class_labels. apply Hnone. by exists c.
Qed.

Lemma chain_bounds (self : Character) :
  (strength self <= strength (_apply_class_bonuses self) <= strength self + 4) /\
  (perception self <= perception (_apply_class_bonuses self) <= perception self + 2) /\
  (dexterity self <= dexterity (_apply_class_bonuses self) <= dexterity self + 4) /\
  (intelligence self <= intelligence (_apply_class_bonuses self) <= intelligence self + 4) /\
  (charisma self <= charisma (_apply_class_bonuses self) <= charisma self + 3) /\
  (luck self <= luck (_apply_class_bonuses self) <= luck self + 2) /\
  (health self - 10 <= health (_apply_class_bonuses self) <= health self + 20) /\
  (attack self <= attack (_apply_class_bonuses self) <= attack self + 2) /\
  (defense self - 1 <= defense (_apply_class_bonuses self) <= defense self + 2) /\
  name (_apply_class_bonuses self) = name self /\
  character_class (_apply_class_bonuses self) = character_class self /\
  level (_apply_class_bonuses self) = level self /\
  inventory (_apply_class_bonuses self) = inventory self.
Proof.
  unfold _apply_class_bonuses.
  repeat (destruct (class_eq _ _); [cbn; repeat split; lia |]).
  repeat split; lia.
Qed.

(** X3: what a class can cost or give.  The chain never lowers one of the
    six attributes or the attack, raises an attribute by at most 4 and
    the attack by at most 2, moves the health by -10 to +20 and the
    defense by -1 to +2, and leaves name, class, level and inventory
    alone. *)
Theorem class_bonus_bounds (self : Character) :
  (strength self <= strength (_apply_class_bonuses self) <= strength self + 4) /\
  (perception self <= perception (_apply_class_bonuses self) <= perception self + 2) /\
  (dexterity self <= dexterity (_apply_class_bonuses self) <= dexterity self + 4) /\
  (intelligence self <= intelligence (_apply_class_bonuses self) <= intelligence self + 4) /\
  (charisma self <= charisma (_apply_class_bonuses self) <= charisma self + 3) /\
  (luck self <= luck (_apply_class_bonuses self) <= luck self + 2) /\
  (health self - 10 <= health (_apply_class_bonuses self) <= health self + 20) /\
  (attack self <= attack (_apply_class_bonuses self) <= attack self + 2) /\
  (defense self - 1 <= defense (_apply_class_bonuses self) <= defense self + 2) /\
  name (_apply_class_bonuses self) = name self /\
  character_class (_apply_class_bonuses self) = character_class self /\
  level (_apply_class_bonuses self) = level self /\
  inventory (_apply_class_bonuses self) = inventory self.
Proof. exact (chain_bounds self). Qed.

(** X4: a character built from a name and a class alone, the rolls being
    those of [random.randint(1, 10)], has every attribute between 1 and
    14, a health between 90 and 120 (it is not born defeated), an attack
    between 10 and 12, a defense between 4 and 7, level 1 and an empty
    inventory, whatever the class. *)
Theorem default_character_ranges (r : Rolls) (n : string) (f : ClassField) :
  rolls_in_range r ->
  let c := Character_init r (combat_args n f None None None) in
  (1 <= strength c <= 14) /\ (1 <= perception c <= 12) /\
  (1 <= dexterity c <= 14) /\ (1 <= intelligence c <= 14) /\
  (1 <= charisma c <= 13) /\ (1 <= luck c <= 12) /\
  (90 <= health c <= 120) /\ (10 <= attack c <= 12) /\
  (4 <= defense c <= 7) /\ level c = 1 /\ inventory c = [].
Proof.
  intros (Hs & Hp & Hd & Hi & Hc & Hl) c. subst c.
  unfold Character_init, __post_init__.
  match goal with
  | |- context [_apply_class_bonuses ?x] =>
      pose proof (chain_bounds x) as
        (B1 & B2 & B3 & B4 & B5 & B6 & B7 & B8 & B9 & _ & _ & B12 & B13);
      set (y := _apply_class_bonuses x) in *
  end.
  clearbody y. cbn in B1, B2, B3, B4, B5, B6, B7, B8, B9, B12, B13.
  repeat split; try lia; assumption.
Qed.

Lemma default_character_ranges_witness :
  let c := Character_init rolls5 (combat_args "Arthur" (Str "Knight") None None None) in
  (1 <= strength c <= 14) /\ (1 <= perception c <= 12) /\
  (1 <= dexterity c <= 14) /\ (1 <= intelligence c <= 14) /\
  (1 <= charisma c <= 13) /\ (1 <= luck c <= 12) /\
  (90 <= health c <= 120) /\ (10 <= attack c <= 12) /\
  (4 <= defense c <= 7) /\ level c = 1 /\ inventory c = [].
Proof.
  apply (default_character_ranges rolls5 "Arthur" (Str "Knight")).
  unfold rolls_in_range. simpl. lia.
Defined.

(** ** Combat *)

Lemma damage_taken_take_damage amount amount' c :
  damage_taken amount (fst (take_damage amount' c)) = damage_taken amount c.
Proof. unfold damage_taken. by rewrite take_damage_defense. Qed.

Lemma hits_state n amount c :
  hits (S n) amount c =
  set_health (Z.max 0 (health c - Z.of_nat (S n) * damage_taken amount c)) c.
Proof.
  revert c. induction n as [| n IH]; intros c.
  - cbn [hits]. rewrite take_damage_state. f_equal. lia.
  - rewrite hits_S, IH, damage_taken_take_damage, take_damage_state.
    pose proof (damage_taken_nonneg amount c) as Hd.
    rewrite health_set_health, set_health_set_health. f_equal. nia.
Qed.

(** X5: repeated hits add up, with one clamp at the end.  After [n >= 1]
    calls [take_damage amount] nothing but the health has changed, the
    health is [max 0 (h - n * max 0 (amount - defense))], and so the
    character is defeated exactly when [h <= n * max 0 (amount - defense)]. *)
Theorem hits_closed_form (n : nat) (amount : Z) (c : Character) :
  hits (S n) amount c =
  set_health (Z.max 0 (health c - Z.of_nat (S n) * damage_taken amount c)) c /\
  (health (hits (S n) amount c) = 0 <->
   health c <= Z.of_nat (S n) * damage_taken amount c).
Proof.
  rewrite hits_state, health_set_health. split; [reflexivity | lia].
Qed.

(** X18: a blow that does not exceed the defense never hurts, however
    often it is repeated: a living character with [amount <= defense] is
    unchanged after any number of [take_damage amount]. *)
Theorem hits_absorbed (n : nat) (amount : Z) (c : Character) :
  amount <= defense c ->
  0 < health c ->
  hits n amount c = c.
Proof.
  intros Ha Hh. destruct n as [| n]; [reflexivity |].
  rewrite hits_state.
  assert (Hd : damage_taken amount c = 0) by (unfold damage_taken; lia).
  rewrite Hd, Z.mul_0_r, Z.sub_0_r, Z.max_r by lia. apply set_health_same.
Qed.

Lemma hits_absorbed_witness : hits 40 5 (hero rolls5) = hero rolls5.
Proof. apply (hits_absorbed 40 5 (hero rolls5)); simpl; lia. Defined.

(** X6: defeat is absorbing under damage.  A character whose health is 0
    (or below) is left at health 0 by every [take_damage], whatever the
    amount, and is reported defeated again. *)
Theorem take_damage_when_defeated (amount : Z) (c : Character) :
  health c <= 0 ->
  take_damage amount c = (set_health 0 c, [Defeated (name c)]).
Proof.
  intros Hc. pose proof (damage_taken_nonneg amount c) as Hd.
  unfold take_damage. rewrite health_set_health.
  destruct (Z.leb_spec (health c - damage_taken amount c) 0); [done | lia].
Qed.

Lemma take_damage_when_defeated_witness :
  take_damage (-3) (set_health 0 (goblin rolls5)) =
  (set_health 0 (set_health 0 (goblin rolls5)), [Defeated "Goblin"]).
Proof.
  apply (take_damage_when_defeated (-3) (set_health 0 (goblin rolls5))).
  simpl. lia.
Defined.

(** X7: what [take_damage] reports.  Either the health ends at 0 and the
    one line printed is the defeat, or it ends above 0 and the one line
    printed carries the incoming [amount] (not the damage that got past
    the defense) and the new health. *)
Theorem take_damage_report (amount : Z) (c : Character) :
  (health (fst (take_damage amount c)) = 0 /\
   snd (take_damage amount c) = [Defeated (name c)]) \/
  (0 < health (fst (take_damage amount c)) /\
   snd (take_damage amount c) =
   [TookDamage (name c) amount (health c - damage_taken amount c)] /\
   health (fst (take_damage amount c)) = health c - damage_taken amount c).
Proof.
  unfold take_damage. rewrite health_set_health.
  destruct (Z.leb_spec (health c - damage_taken amount c) 0); simpl.
  - by left.
  - right. by repeat split.
Qed.

(** X8: [take_damage] is monotone.  A larger amount, a weaker defense or
    a lower health before never gives a higher health after. *)
Theorem take_damage_monotone (amount amount' : Z) (c c' : Character) :
  amount <= amount' ->
  defense c' <= defense c ->
  health c' <= health c ->
  health (fst (take_damage amount' c')) <= health (fst (take_damage amount c)).
Proof.
  intros Ha Hd Hh. rewrite !take_damage_health. unfold damage_taken. lia.
Qed.

Lemma take_damage_monotone_witness :
  health (fst (take_damage 9 (goblin rolls5)))
  <= health (fst (take_damage 5 (hero rolls5))).
Proof.
  apply (take_damage_monotone 5 9 (hero rolls5) (goblin rolls5));
    simpl; lia.
Defined.

(** X9: [attack_enemy] on the world.  When character [i] attacks
    character [j], the call returns, entry [j] gets the health
    [max 0 (h - max 0 (attack_i - defense_j))] and nothing else in the
    world changes; this covers a character attacking itself ([i = j]). *)
Theorem call_attack_enemy_world (w : World) (i j : nat) (c e : Character) :
  w !! i = Some c ->
  w !! j = Some e ->
  exists out,
    call (CallAttackEnemy i j) w =
    Returns (<[j := set_health
                      (Z.max 0 (health e - Z.max 0 (attack c - defense e))) e]> w,
             out) /\
    out = Attacks (name c) (name e) (attack c) :: snd (take_damage (attack c) e).
Proof.
  intros Hi Hj. simpl. rewrite Hi, Hj. unfold attack_enemy.
  pose proof (take_damage_state (attack c) e) as Hstate.
  destruct (take_damage (attack c) e) as [e' out] eqn:Htd.
  simpl in Hstate. subst e'. eexists. split; reflexivity.
Qed.

Lemma call_attack_enemy_world_witness :
  exists out,
    call (CallAttackEnemy 0 0) [hero rolls5] =
    Returns (<[0%nat := set_health (Z.max 0 (110 - Z.max 0 (10 - 6)))
                          (hero rolls5)]> [hero rolls5], out) /\
    out = Attacks "Arthur" "Arthur" 10 :: snd (take_damage 10 (hero rolls5)).
Proof.
  apply (call_attack_enemy_world [hero rolls5] 0 0 (hero rolls5) (hero rolls5));
    reflexivity.
Defined.

(** ** The inventory *)

(** Using a potion that [in] finds: the health gained and the copies
    left. *)
Lemma use_consumable_potion_count c p :
  isinstance_Potion (obj p) = true ->
  py_in p (inventory c) = true ->
  exists c' out,
    use_consumable p c = Returns (c', out) /\
    health c' = health c + potion_amount (obj p) /\
    count_equal p (inventory c) = S (count_equal p (inventory c')) /\
    length (inventory c) = S (length (inventory c')) /\
    same_but_health_inventory c c'.
Proof.
  intros Hpot Hin.
  destruct (obj p) as [| | | | n d t a] eqn:Hp; try discriminate.
  destruct (py_in_split p _ Hin) as (l1 & q & l2 & Hinv & Hl1 & Hq).
  eexists _, _. split; [by eapply use_consumable_potion |].
  cbn [inventory set_inventory health add_health set_health potion_amount].
  rewrite Hinv, !count_equal_app, (count_equal_cons_eq p q l2 Hq), !length_app.
  simpl. repeat split; lia.
Qed.

(** X10: picking a potion up and using it.  After [add_item p] the call
    [use_consumable p] always succeeds for a potion: the health rises by
    [p]'s amount and the inventory is as long as before the pick-up; when
    nothing equal to [p] was carried before, the character is exactly the
    one before the pick-up with the health raised. *)
Theorem add_then_use_potion (c : Character) (p : ItemRef) :
  isinstance_Potion (obj p) = true ->
  exists c' out,
    use_consumable p (fst (add_item p c)) = Returns (c', out) /\
    health c' = health c + potion_amount (obj p) /\
    length (inventory c') = length (inventory c) /\
    (py_in p (inventory c) = false ->
     c' = add_health (potion_amount (obj p)) c).
Proof.
  intros Hpot.
  destruct (obj p) as [| | | | n d t a] eqn:Hp; try discriminate.
  cbn [potion_amount add_item fst].
  destruct (py_in p (inventory c)) eqn:Hin.
  - destruct (py_in_split p _ Hin) as (l1 & q & l2 & Hinv & Hl1 & Hq).
    eexists _, _. split.
    + eapply (use_consumable_potion _ p n d t a l1 q (l2 ++ [p])); eauto.
      cbn [inventory set_inventory]. rewrite Hinv, <- app_assoc. reflexivity.
    + cbn [inventory set_inventory health add_health set_health].
      rewrite Hinv, !length_app. cbn [length].
      repeat split; [lia | discriminate].
  - eexists _, _. split.
    + eapply (use_consumable_potion _ p n d t a (inventory c) p []); eauto.
      apply py_eq_refl.
    + cbn [inventory set_inventory health add_health set_health].
      rewrite app_nil_r. repeat split.
Qed.

Lemma add_then_use_potion_witness :
  exists c' out,
    use_consumable (mkRef 2 healing_potion)
      (fst (add_item (mkRef 2 healing_potion) (hero rolls5)))
    = Returns (c', out) /\
    health c' = 110 + 2 /\
    length (inventory c') = 0%nat /\
    (py_in (mkRef 2 healing_potion) [] = false ->
     c' = add_health 2 (hero rolls5)).
Proof.
  apply (add_then_use_potion (hero rolls5) (mkRef 2 healing_potion)).
  reflexivity.
Defined.

(** X11: the type of a potion plays no part in its effect.  A potion of
    any [potion_type] found in the inventory adds its amount to the
    health; the six attributes, level, attack and defense stay as they
    were, and the output names the type only in the "Drinking" line. *)
Theorem potion_type_is_ignored
    (c : Character) (p : ItemRef) (n d : string) (t : PotionType) (a : Z) :
  obj p = Potion n d t a ->
  py_in p (inventory c) = true ->
  exists inv,
    use_consumable p c =
    Returns (set_inventory inv (add_health a c),
             [Drinking t a; Healed (name c) a (health c + a)]).
Proof.
  intros Hp Hin.
  destruct (py_in_split p _ Hin) as (l1 & q & l2 & Hinv & Hl1 & Hq).
  exists (l1 ++ l2). by eapply use_consumable_potion.
Qed.

Lemma potion_type_is_ignored_witness :
  exists inv,
    use_consumable (mkRef 4 (Potion "Elixir" "Makes strong." STRENGTH 7))
      (set_inventory [mkRef 4 (Potion "Elixir" "Makes strong." STRENGTH 7)]
         (hero rolls5)) =
    Returns (set_inventory inv
               (add_health 7
                  (set_inventory
                     [mkRef 4 (Potion "Elixir" "Makes strong." STRENGTH 7)]
                     (hero rolls5))),
             [Drinking STRENGTH 7; Healed "Arthur" 7 (110 + 7)]).
Proof.
  apply (potion_type_is_ignored
           (set_inventory [mkRef 4 (Potion "Elixir" "Makes strong." STRENGTH 7)]
              (hero rolls5))
           (mkRef 4 (Potion "Elixir" "Makes strong." STRENGTH 7))
           "Elixir" "Makes strong." STRENGTH 7); reflexivity.
Defined.

(** X12: a potion heals as often as there are copies of it.  [n]
    successive calls [use_consumable p] for a potion [p] all return; with
    [k] entries equal to [p] in the inventory they raise the health by
    [min n k] times [p]'s amount and leave [k - min n k] such entries:
    once the copies are used up, further calls change nothing. *)
Theorem use_n_potion (n : nat) (p : ItemRef) (c : Character) :
  isinstance_Potion (obj p) = true ->
  exists c',
    use_n n p c = Returns c' /\
    health c' =
      health c + Z.of_nat (Nat.min n (count_equal p (inventory c)))
                 * potion_amount (obj p) /\
    count_equal p (inventory c') =
      (count_equal p (inventory c) - Nat.min n (count_equal p (inventory c)))%nat.
Proof.
  intros Hpot. revert c. induction n as [| n IH]; intros c.
  - exists c. simpl. repeat split; lia.
  - cbn [use_n]. destruct (py_in p (inventory c)) eqn:Hin.
    + destruct (use_consumable_potion_count c p Hpot Hin)
        as (c1 & out & -> & Hh & Hcount & _ & _).
      destruct (IH c1) as (c' & -> & Hh' & Hcount').
      exists c'. split; [done |]. rewrite Hh', Hcount', Hh, Hcount.
      split; [| lia].
      replace (Nat.min (S n) (S (count_equal p (inventory c1))))
        with (S (Nat.min n (count_equal p (inventory c1)))) by lia.
      lia.
    + unfold use_consumable at 1. rewrite Hin.
      destruct (IH c) as (c' & -> & Hh' & Hcount').
      exists c'. split; [done |]. rewrite Hh', Hcount'.
      apply count_equal_zero in Hin. rewrite Hin.
      rewrite !Nat.min_0_r. split; lia.
Qed.

Lemma use_n_potion_witness :
  exists c',
    use_n 3 (mkRef 9 healing_potion)
      (set_inventory [mkRef 2 healing_potion; mkRef 1 sword; mkRef 3 healing_potion]
         (hero rolls5)) = Returns c' /\
    health c' = 110 + Z.of_nat (Nat.min 3 2) * 2 /\
    count_equal (mkRef 9 healing_potion) (inventory c') = (2 - Nat.min 3 2)%nat.
Proof.
  apply (use_n_potion 3 (mkRef 9 healing_potion)
           (set_inventory
              [mkRef 2 healing_potion; mkRef 1 sword; mkRef 3 healing_potion]
              (hero rolls5))).
  reflexivity.
Defined.

(** ** Sequences of calls *)

Lemma same_refl c : same_but_health_inventory c c.
Proof. by destruct c. Qed.

Lemma same_trans c1 c2 c3 :
  same_but_health_inventory c1 c2 ->
  same_but_health_inventory c2 c3 ->
  same_but_health_inventory c1 c3.
Proof. unfold same_but_health_inventory. intros H12 H23. by rewrite H23, H12. Qed.

Lemma same_set_health v c : same_but_health_inventory c (set_health v c).
Proof. reflexivity. Qed.

Lemma same_set_inventory l c : same_but_health_inventory c (set_inventory l c).
Proof. reflexivity. Qed.

Lemma list_remove_sublist x l l' :
  list_remove x l = Returns l' ->
  (forall y, In y l' -> In y l) /\ (length l' <= length l)%nat.
Proof.
  revert l'. induction l as [| z l IH]; simpl; intros l'; [discriminate |].
  destruct (py_eq z x).
  - intros [= <-]. split; [tauto | lia].
  - destruct (list_remove x l) as [r |]; [| discriminate].
    intros [= <-]. destruct (IH r eq_refl) as [Hin Hlen].
    split; [| simpl; lia]. intros y [-> | Hy]; simpl; auto.
Qed.

(** [use_consumable] touches the health and the inventory only, and puts
    nothing into the inventory. *)
Lemma use_consumable_frame item c c' out :
  use_consumable item c = Returns (c', out) ->
  same_but_health_inventory c c' /\
  (forall y, In y (inventory c') -> In y (inventory c)) /\
  (length (inventory c') <= length (inventory c))%nat.
Proof.
  unfold use_consumable. destruct (py_in item (inventory c)).
  - destruct (obj item);
      try (intros [= <- _]; split; [apply same_refl | split; [tauto | lia]]).
    cbn [consume add_health inventory set_health].
    destruct (list_remove item (inventory c)) as [l |] eqn:Hrm; [| discriminate].
    intros [= <- _]. destruct (list_remove_sublist _ _ _ Hrm) as [Hin Hlen].
    split; [reflexivity | by split].
  - intros [= <- _]. split; [apply same_refl | split; [tauto | lia]].
Qed.

(** What one call does to the world. *)
Lemma call_step k w w' out :
  call k w = Returns (w', out) ->
  length w' = length w /\
  forall i c', w' !! i = Some c' ->
    exists c, w !! i = Some c /\ same_but_health_inventory c c'.
Proof.
  assert (Hkeep : forall i c', w !! i = Some c' ->
            exists c, w !! i = Some c /\ same_but_health_inventory c c').
  { intros i c' Hi. exists c'. split; [done | apply same_refl]. }
  assert (Hnone : w' = w -> length w' = length w /\
            forall i c', w' !! i = Some c' ->
              exists c, w !! i = Some c /\ same_but_health_inventory c c').
  { by intros ->. }
  destruct k as [j amount | a j | j item | j item]; cbn [call].
  - destruct (w !! j) as [c |] eqn:Hj; [| intros [= <- _]; by apply Hnone].
    pose proof (take_damage_state amount c) as Hst.
    destruct (take_damage amount c) as [c1 out1]. simpl in Hst. subst c1.
    intros [= <- _]. split; [apply length_insert |].
    intros i c' [(<- & <- & _) | [Hne Hi]]%list_lookup_insert_Some;
      [| by apply Hkeep].
    exists c. split; [done | apply same_set_health].
  - destruct (w !! a) as [ca |] eqn:Ha; [| intros [= <- _]; by apply Hnone].
    destruct (w !! j) as [c |] eqn:Hj; [| intros [= <- _]; by apply Hnone].
    unfold attack_enemy.
    pose proof (take_damage_state (attack ca) c) as Hst.
    destruct (take_damage (attack ca) c) as [c1 out1]. simpl in Hst. subst c1.
    intros [= <- _]. split; [apply length_insert |].
    intros i c' [(<- & <- & _) | [Hne Hi]]%list_lookup_insert_Some;
      [| by apply Hkeep].
    exists c. split; [done | apply same_set_health].
  - destruct (w !! j) as [c |] eqn:Hj; [| intros [= <- _]; by apply Hnone].
    cbn [add_item]. intros [= <- _]. split; [apply length_insert |].
    intros i c' [(<- & <- & _) | [Hne Hi]]%list_lookup_insert_Some;
      [| by apply Hkeep].
    exists c. split; [done | apply same_set_inventory].
  - destruct (w !! j) as [c |] eqn:Hj; [| intros [= <- _]; by apply Hnone].
    destruct (use_consumable item c) as [[c1 out1] |] eqn:Huse; [| discriminate].
    intros [= <- _]. split; [apply length_insert |].
    intros i c' [(<- & <- & _) | [Hne Hi]]%list_lookup_insert_Some;
      [| by apply Hkeep].
    destruct (use_consumable_frame _ _ _ _ Huse) as (Hsame & _).
    exists c. by split.
Qed.

(** What a sequence of calls does to the world. *)
Lemma run_steps ks w w' out :
  run ks w = Returns (w', out) ->
  length w' = length w /\
  forall i c', w' !! i = Some c' ->
    exists c, w !! i = Some c /\ same_but_health_inventory c c'.
Proof.
  revert w w' out. induction ks as [| k ks IH]; intros w w' out; simpl.
  - intros [= <- _]. split; [done |]. intros i c' Hi. exists c'.
    split; [done | apply same_refl].
  - destruct (call k w) as [[w1 out1] |] eqn:Hcall; [| discriminate].
    destruct (run ks w1) as [[w2 out2] |] eqn:Hrun; [| discriminate].
    intros [= <- _].
    destruct (call_step _ _ _ _ Hcall) as [Hlen1 Hstep].
    destruct (IH _ _ _ Hrun) as [Hlen2 Hrest].
    split; [congruence |]. intros i c' Hi.
    destruct (Hrest i c' Hi) as (c1 & Hi1 & Hs1).
    destruct (Hstep i c1 Hi1) as (c & Hi0 & Hs0).
    exists c. split; [done | by eapply same_trans].
Qed.

Lemma run_returns ks w : exists w' out, run ks w = Returns (w', out).
Proof.
  revert w. induction ks as [| k ks IH]; intros w; simpl; [eauto |].
  assert (Hcall : exists w1 out1, call k w = Returns (w1, out1)).
  { destruct k as [j amount | a j | j item | j item]; simpl.
    - destruct (w !! j); [| eauto]. destruct (take_damage _ _); eauto.
    - destruct (w !! a); [| eauto]. destruct (w !! j); [| eauto].
      destruct (attack_enemy _ _); eauto.
    - destruct (w !! j); eauto.
    - destruct (w !! j) as [c |]; [| eauto].
      destruct (use_consumable_returns item c) as (c' & out & ->). eauto. }
  destruct Hcall as (w1 & out1 & ->).
  destruct (IH w1) as (w2 & out2 & ->). eauto.
Qed.

(** X13: no sequence of calls raises, creates or drops a character, or
    changes anything but health and inventory.  Every sequence of
    [take_damage], [attack_enemy], [add_item] and [use_consumable] calls
    runs to its end (the [ValueError] of [remove] never escapes); the
    world keeps its size, and every character keeps its name, class,
    level, six attributes, attack and defense: the class bonuses are
    never applied again and nothing levels up. *)
Theorem run_touches_health_and_inventory_only (ks : list Call) (w : World) :
  exists w' out,
    run ks w = Returns (w', out) /\
    length w' = length w /\
    forall i c, w !! i = Some c ->
      exists c', w' !! i = Some c' /\ same_but_health_inventory c c'.
Proof.
  destruct (run_returns ks w) as (w' & out & Hrun).
  destruct (run_steps _ _ _ _ Hrun) as [Hlen Hsteps].
  exists w', out. split; [done |]. split; [done |].
  intros i c Hi.
  assert (Hlt : (i < length w')%nat).
  { rewrite Hlen. by eapply lookup_lt_Some. }
  destruct (lookup_lt_is_Some_2 _ _ Hlt) as [c' Hi'].
  destruct (Hsteps i c' Hi') as (c0 & Hi0 & Hsame).
  exists c'. split; [done |]. congruence.
Qed.

(** ** [display_info] *)

Lemma string_append_assoc (a b c : string) :
  ((a ++ b) ++ c)%string = (a ++ (b ++ c))%string.
Proof. induction a as [| x a IH]; simpl; [done | by rewrite IH]. Qed.

Lemma concat_snoc sep x l y :
  String.concat sep ((x :: l) ++ [y]) =
  (String.concat sep (x :: l) ++ (sep ++ y))%string.
Proof.
  revert x. induction l as [| z l IH]; intros x; [done |].
  change (String.concat sep ((x :: z :: l) ++ [y]))
    with (x ++ sep ++ String.concat sep ((z :: l) ++ [y]))%string.
  rewrite IH.
  change (String.concat sep (x :: z :: l))
    with (x ++ sep ++ String.concat sep (z :: l))%string.
  by rewrite !string_append_assoc.
Qed.

(** X16: what [display_info] shows after a pick-up.  The first six lines
    are as before; the inventory line, which reads "Empty" for an empty
    inventory, becomes the name of the item when the inventory was empty
    and otherwise the former line followed by ", " and the name: the
    names appear in pick-up order. *)
Theorem display_info_after_add_item (item : ItemRef) (c : Character) :
  inventory_text [] = "Empty" /\
  display_info (fst (add_item item c)) =
  take 6 (display_info c) ++
  [InventoryLine
     match inventory c with
     | [] => item_name (obj item)
     | _ :: _ =>
         (inventory_text (inventory c) ++ ", " ++ item_name (obj item))%string
     end].
Proof.
  split; [reflexivity |].
  unfold display_info. cbn [add_item fst take app].
  cbn [name character_class level health attack defense inventory set_inventory].
  do 6 f_equal. destruct (inventory c) as [| x l] eqn:Hinv; [done |].
  unfold inventory_text. cbn [app]. rewrite app_comm_cons, map_app.
  cbn [map]. by rewrite concat_snoc.
Qed.

(** ** [main] *)

(** X17: the run of [main] does not depend on the random draws but for
    the attributes shown.  Whatever the rolls, the goblin's attack of 5
    does not get past the hero's defense of 6, the hero's two attacks
    take the goblin from 35 to 27 and to 19, and the hero ends with the
    sword and the potion, in that order. *)
Theorem main_outcome (r_hero r_goblin : Rolls) (durability : Z) :
  main r_hero r_goblin durability =
  (set_inventory
     [mkRef 1 (Weapon "Sword of Power" "A mighty sword." 3 durability);
      mkRef 2 healing_potion]
     (hero r_hero),
   set_health 19 (goblin r_goblin),
   map Shown (display_info (hero r_hero))
   ++ map Shown (display_info (goblin r_goblin))
   ++ [Banner "--- Battle Start ---";
       Said (Attacks "Arthur" "Goblin" 10); Said (TookDamage "Goblin" 10 27);
       Said (Attacks "Goblin" "Arthur" 5); Said (TookDamage "Arthur" 5 110);
       Said (Attacks "Arthur" "Goblin" 10); Said (TookDamage "Goblin" 10 19);
       Banner "--- After Battle ---"]
   ++ map Shown (display_info (hero r_hero))
   ++ map Shown (display_info (set_health 19 (goblin r_goblin)))
   ++ [Said (PickedUp "Arthur"
               (Weapon "Sword of Power" "A mighty sword." 3 durability));
       Said (PickedUp "Arthur" healing_potion)]
   ++ map Shown
        (display_info
           (set_inventory
              [mkRef 1 (Weapon "Sword of Power" "A mighty sword." 3 durability);
               mkRef 2 healing_potion]
              (hero r_hero)))).
Proof. destruct r_hero, r_goblin. vm_compute. reflexivity. Qed.

(** ** Exchanges of blows *)

Lemma call_attack_enemy_state w i j c e :
  w !! i = Some c ->
  w !! j = Some e ->
  exists out,
    call (CallAttackEnemy i j) w =
    Returns (<[j := set_health
                      (Z.max 0 (health e - Z.max 0 (attack c - defense e))) e]> w,
             out).
Proof.
  intros Hi Hj. simpl. rewrite Hi, Hj. unfold attack_enemy.
  pose proof (take_damage_state (attack c) e) as Hstate.
  destruct (take_damage (attack c) e) as [e' out] eqn:Htd.
  simpl in Hstate. subst e'. by eexists.
Qed.

Lemma run_two k1 k2 w w1 w2 o1 o2 :
  call k1 w = Returns (w1, o1) ->
  call k2 w1 = Returns (w2, o2) ->
  run [k1; k2] w = Returns (w2, o1 ++ o2 ++ []).
Proof.
  intros H1 H2. cbn [run]. rewrite H1. cbn beta iota. by rewrite H2.
Qed.

(** X19: two characters trading blows end the same whoever strikes
    first.  No method looks at the attacker's health, so a character
    brought to 0 strikes back as hard: for distinct [i] and [j], the
    world after "[i] attacks [j], then [j] attacks [i]" is the world
    after "[j] attacks [i], then [i] attacks [j]". *)
Theorem blows_commute (w : World) (i j : nat) (c e : Character) :
  i <> j ->
  w !! i = Some c ->
  w !! j = Some e ->
  exists w' out out',
    run [CallAttackEnemy i j; CallAttackEnemy j i] w = Returns (w', out) /\
    run [CallAttackEnemy j i; CallAttackEnemy i j] w = Returns (w', out').
Proof.
  intros Hne Hi Hj. unfold World in *.
  set (e1 := set_health (Z.max 0 (health e - Z.max 0 (attack c - defense e))) e).
  set (c1 := set_health (Z.max 0 (health c - Z.max 0 (attack e - defense c))) c).
  destruct (call_attack_enemy_state w i j c e Hi Hj) as [o1 H1].
  assert (Hj1 : <[j := e1]> w !! j = Some e1).
  { apply list_lookup_insert_eq. by eapply lookup_lt_Some. }
  assert (Hi1 : <[j := e1]> w !! i = Some c).
  { by rewrite list_lookup_insert_ne. }
  destruct (call_attack_enemy_state _ j i e1 c Hj1 Hi1) as [o2 H2].
  destruct (call_attack_enemy_state w j i e c Hj Hi) as [o3 H3].
  assert (Hi2 : <[i := c1]> w !! i = Some c1).
  { apply list_lookup_insert_eq. by eapply lookup_lt_Some. }
  assert (Hj2 : <[i := c1]> w !! j = Some e).
  { by rewrite list_lookup_insert_ne. }
  destruct (call_attack_enemy_state _ i j c1 e Hi2 Hj2) as [o4 H4].
  exists (<[i := c1]> (<[j := e1]> w)), (o1 ++ o2 ++ []), (o3 ++ o4 ++ []).
  split.
  - exact (run_two _ _ _ _ _ _ _ H1 H2).
  - rewrite list_insert_insert_ne by done.
    exact (run_two _ _ _ _ _ _ _ H3 H4).
Qed.

Lemma blows_commute_witness :
  exists w' out out',
    run [CallAttackEnemy 0 1; CallAttackEnemy 1 0] (construct main_specs)
    = Returns (w', out) /\
    run [CallAttackEnemy 1 0; CallAttackEnemy 0 1] (construct main_specs)
    = Returns (w', out').
Proof.
  apply (blows_commute (construct main_specs) 0 1 (hero rolls5) (goblin rolls5));
    [lia | reflexivity | reflexivity].
Defined.
